(** * StakeholderGPT: the grilling pipeline of [main.py]

    A shallow embedding of [create_stakeholders], [create_grilling_tasks],
    [create_evaluation_task] and the [grill] command, together with the
    properties of the orchestration that the specification states.

    Python [str] values are sequences of Unicode code points; agents and
    tasks are objects that live in a store and are passed by reference; the
    text-generation backend reached through [Crew.kickoff] is a parameter of
    the development. *)

From Stdlib Require Import List NArith ZArith String Ascii Bool Lia.
Import ListNotations.

(* ================================================================= *)
(** ** Python strings *)

Module PyStr.

(** A [str] is a sequence of code points. *)
Definition str : Type := list N.

(** The code points of an ASCII literal of the source. *)
Definition lit (s : string) : str := map N_of_ascii (list_ascii_of_string s).

(** The escape [\n]. *)
Definition nl : str := [10%N].

(** [str.isspace] on one code point: the white-space table of CPython
    ([_PyUnicode_IsWhitespace]). *)
Definition isspace (c : N) : bool :=
  (((0x09 <=? c) && (c <=? 0x0D)) || ((0x1C <=? c) && (c <=? 0x20))
   || (c =? 0x85) || (c =? 0xA0) || (c =? 0x1680)
   || ((0x2000 <=? c) && (c <=? 0x200A))
   || (c =? 0x2028) || (c =? 0x2029) || (c =? 0x202F) || (c =? 0x205F)
   || (c =? 0x3000))%N.

Fixpoint lstrip (s : str) : str :=
  match s with
  | c :: s' => if isspace c then lstrip s' else s
  | [] => []
  end.

Definition rstrip (s : str) : str := rev (lstrip (rev s)).

(** [s.strip()] with no argument. *)
Definition strip (s : str) : str := rstrip (lstrip s).

(** Truth value of a [str]: the empty string is falsy. *)
Definition nonempty (s : str) : bool :=
  match s with [] => false | _ :: _ => true end.

(** An [Optional[str]] under [if]: [None] and the empty string are falsy;
    a truthy value is a string with a first character. *)
Definition truthy (o : option str) : option str :=
  match o with
  | Some (c :: s) => Some (c :: s)
  | Some [] => None
  | None => None
  end.

(** [needle in hay], as a proposition and as a test. *)
Definition occurs (needle hay : str) : Prop :=
  exists pre post, hay = pre ++ needle ++ post.

Fixpoint starts_with (needle hay : str) : bool :=
  match needle, hay with
  | [], _ => true
  | _ :: _, [] => false
  | a :: n', b :: h' => (a =? b)%N && starts_with n' h'
  end.

Fixpoint contains (needle hay : str) : bool :=
  starts_with needle hay
  || match hay with [] => false | _ :: h' => contains needle h' end.

Definition str_eq_dec : forall a b : str, {a = b} + {a <> b} :=
  list_eq_dec N.eq_dec.

End PyStr.
Import PyStr.

Arguments lit : simpl never.

(* ================================================================= *)
(** ** The objects of the program *)

(** Objects are referred to by their position in the store. *)
Definition ref : Type := nat.

(** [crewai.Agent], with the keyword arguments [create_stakeholders] gives. *)
Record Agent : Type := mkAgent {
  role : str;
  goal : str;
  backstory : str;
  verbose : bool;
  llm : str
}.

(** [crewai.Task]: the arguments the constructors give, and the [output]
    attribute that [Crew.kickoff] sets ([None] until the task has run). *)
Record Task : Type := mkTask {
  description : str;
  expected_output : str;
  agent : ref;
  output : option str
}.

(** [crewai.Crew(agents=..., tasks=..., verbose=False)]. *)
Record Crew : Type := mkCrew {
  crew_agents : list ref;
  crew_tasks : list ref
}.

(** What [console.print] is given: a string, [Markdown(text)] or
    [Panel(body, title=, subtitle=, border_style=, expand=)]. *)
Inductive renderable : Type :=
| Text (s : str)
| Markdown (s : str)
| Panel (body : renderable) (title subtitle border_style : option str)
        (expand : bool).

(** What a run does that is visible from outside, in order: a
    [console.print], or one request to the text-generation backend (the
    task as it was when its agent executed it, and the backend's answer:
    [None] when it failed). *)
Inductive event : Type :=
| Print (r : renderable)
| Generate (t : ref) (request : Task) (answer : option str).

(** The exceptions that can leave [grill]. *)
Inductive exn : Type :=
| Exit (code : Z)                 (* typer.Exit(code) *)
| FileError (path : str)           (* open() failed *)
| IndexError                       (* list index out of range *)
| ReferenceError                   (* a reference to no object: the
                                      lookups of the store are total,
                                      no run of [grill] raises it *)
| GenerationFailure (t : ref).     (* raised out of Crew.kickoff *)

(** A call returns a value or raises. *)
Inductive result (A : Type) : Type :=
| Ok (a : A)
| Raise (e : exn).
Arguments Ok {A} a.
Arguments Raise {A} e.

(** What the process reads from its surroundings. *)
Record Env : Type := mkEnv {
  STAKEHOLDER_MODEL : option str;   (* os.getenv("STAKEHOLDER_MODEL") *)
  files : str -> option str;        (* contents of a readable file *)
  stdin : str                       (* sys.stdin.read() *)
}.

(** [LLM_CONFIG["model"]]. *)
Definition LLM_CONFIG_model (env : Env) : str :=
  match STAKEHOLDER_MODEL env with
  | Some m => m
  | None => lit "ollama/llama3.1:8b"
  end.

(* ================================================================= *)
(** ** The persona registry: [create_stakeholders] *)

Definition ceo_agent (env : Env) : Agent :=
  {| role := lit "CEO";
     goal := lit "Evaluate roadmap proposals from a business and strategic perspective";
     (* the first three lines of the literal end in a space *)
     backstory :=
       lit "You are a seasoned CEO who has built multiple successful companies. " ++ nl ++
       lit "        You care deeply about ROI, market timing, resource allocation, and strategic focus. " ++ nl ++
       lit "        You ask tough questions about business value and opportunity cost. " ++ nl ++
       lit "        You're supportive but demanding - you want to see clear thinking.";
     verbose := false;
     llm := LLM_CONFIG_model env |}.

Definition cto_agent (env : Env) : Agent :=
  {| role := lit "CTO";
     goal := lit "Evaluate roadmap proposals from a technical feasibility and architecture perspective";
     backstory := lit "You are an experienced CTO who has scaled systems from startup to enterprise.
        You care about technical debt, scalability, integration complexity, and team capacity.
        You ask probing questions about implementation risks and technical trade-offs.
        You're collaborative but rigorous - you want realistic plans.";
     verbose := false;
     llm := LLM_CONFIG_model env |}.

Definition designer_agent (env : Env) : Agent :=
  {| role := lit "Head of Design";
     goal := lit "Evaluate roadmap proposals from a user experience and validation perspective";
     backstory := lit "You are a user-obsessed design leader who has shipped products used by millions.
        You care about user problems, validation, usability, and design coherence.
        You ask challenging questions about user research and experience trade-offs.
        You're empathetic but principled - you advocate for users.";
     verbose := false;
     llm := LLM_CONFIG_model env |}.

(* ================================================================= *)
(** ** The task constructors *)

(** The f-strings of the task descriptions: the literal text before and
    after each substitution. *)
Definition ceo_prompt_head : str := lit "Review this roadmap pitch and ask 2-3 tough business questions:

PITCH:
".

Definition ceo_prompt_tail : str := lit "

Ask questions a CEO would ask:
- What's the ROI and how did you calculate it?
- Why now? What's the market timing?
- What are we choosing NOT to do by pursuing this?
- How does this align with our strategic priorities?
- What's the competitive risk if we don't do this?

Be direct but constructive. Challenge assumptions.".

Definition cto_prompt_head : str := lit "Review this roadmap pitch and ask 2-3 tough technical questions:

PITCH:
".

Definition cto_prompt_tail : str := lit "

Ask questions a CTO would ask:
- How does this scale? What's the architecture?
- What technical debt are we taking on?
- What are the integration risks with existing systems?
- Do we have the team capacity and skills?
- What's the rollback plan if it fails?

Be thorough but fair. Identify real technical risks.".

Definition designer_prompt_head : str := lit "Review this roadmap pitch and ask 2-3 tough user experience questions:

PITCH:
".

Definition designer_prompt_tail : str := lit "

Ask questions a Head of Design would ask:
- What specific user problem does this solve?
- How have we validated this with users?
- What's the UX complexity for end users?
- How does this fit with our existing product experience?
- What are users asking for that we're ignoring?

Be user-focused but practical. Advocate for the customer.".

Definition evaluation_prompt_head : str := lit "Based on the stakeholder questions raised about this pitch, provide a readiness assessment:

ORIGINAL PITCH:
".

Definition evaluation_prompt_middle : str := lit "

STAKEHOLDER QUESTIONS:
".

Definition evaluation_prompt_tail : str := lit "

Provide:
1. **Readiness Score**: 1-10 (10 = ready to present to real stakeholders)
2. **Strengths**: What's strong about this pitch?
3. **Gaps**: What needs more work before the real meeting?
4. **Suggested Improvements**: 3 specific things to add or clarify

Be honest and helpful. The goal is to make them better prepared.".

(** The [Task(...)] objects of [create_grilling_tasks], before they are
    placed in the store. *)
Definition ceo_task (pitch : str) (ceo : ref) : Task :=
  {| description := ceo_prompt_head ++ pitch ++ ceo_prompt_tail;
     expected_output := lit "2-3 tough business-focused questions about the roadmap pitch";
     agent := ceo;
     output := None |}.

Definition cto_task (pitch : str) (cto : ref) : Task :=
  {| description := cto_prompt_head ++ pitch ++ cto_prompt_tail;
     expected_output := lit "2-3 tough technical questions about the roadmap pitch";
     agent := cto;
     output := None |}.

Definition designer_task (pitch : str) (designer : ref) : Task :=
  {| description := designer_prompt_head ++ pitch ++ designer_prompt_tail;
     expected_output := lit "2-3 tough user experience questions about the roadmap pitch";
     agent := designer;
     output := None |}.

(** The [Task(...)] object of [create_evaluation_task]. *)
Definition evaluation_task (pitch questions : str) (ceo : ref) : Task :=
  {| description :=
       evaluation_prompt_head ++ pitch ++ evaluation_prompt_middle ++
       questions ++ evaluation_prompt_tail;
     expected_output := lit "A readiness assessment with score, strengths, gaps, and improvement suggestions";
     agent := ceo;
     output := None |}.

(** [str(x)] and the formatting of [{x}] in an f-string, for the [output]
    attribute of a task: the raw text, or [None] printed as such. *)
Definition str_of_output (o : option str) : str :=
  match o with
  | Some s => s
  | None => lit "None"
  end.

(** The f-string of lines 202-208, on the texts of the three outputs. *)
Definition questions_text (o0 o1 o2 : str) : str :=
  nl ++ lit "CEO: " ++ o0 ++ nl ++ nl ++
  lit "CTO: " ++ o1 ++ nl ++ nl ++
  lit "Designer: " ++ o2 ++ nl.

(* ================================================================= *)
(** ** What [grill] prints *)

Definition enter_prompt : renderable :=
  Text (lit "[yellow]Enter your pitch (Ctrl+D or Ctrl+Z when done):[/yellow]").

Definition no_pitch_line : renderable :=
  Text (lit "[red]No pitch provided. Use --pitch or --file.[/red]").

Definition banner : renderable :=
  Panel
    (Text (lit "[bold blue]" ++ [0x1F3AF%N] ++ lit " StakeholderGPT[/bold blue]" ++ nl ++
           lit "[dim]Flight simulator for Product Managers[/dim]"))
    None
    (Some (lit "Preparing your stakeholder grilling session..."))
    None true.

Definition assembling_line : renderable :=
  Text (nl ++ lit "[dim]Assembling your stakeholder panel...[/dim]").

Definition starting_line : renderable :=
  Text (lit "[dim]Starting the grilling session...[/dim]" ++ nl).

Definition ceo_header : renderable :=
  Panel (Text (lit "[bold red]" ++ [0x1F454%N] ++ lit " CEO Questions[/bold red]"))
        None None None false.

Definition cto_header : renderable :=
  Panel (Text (lit "[bold blue]" ++ [0x1F4BB%N] ++ lit " CTO Questions[/bold blue]"))
        None None None false.

Definition designer_header : renderable :=
  Panel (Text (lit "[bold green]" ++ [0x1F3A8%N] ++ lit " Designer Questions[/bold green]"))
        None None None false.

Definition calculating_line : renderable :=
  Text (nl ++ lit "[dim]Calculating your readiness score...[/dim]" ++ nl).

Definition assessment_panel (assessment : str) : renderable :=
  Panel (Markdown assessment)
        (Some (lit "[bold yellow]" ++ [0x1F4CA%N] ++ lit " Readiness Assessment[/bold yellow]"))
        None (Some (lit "yellow")) true.

Definition complete_line : renderable :=
  Text (nl ++ lit "[green]" ++ [0x2705%N] ++
        lit " Grilling session complete! Use this feedback to strengthen your pitch.[/green]").

(* ================================================================= *)
(** ** What [example] prints *)

(** The literal [example_pitch] of lines 230-253 (the line of month 2 ends
    in two spaces). *)
Definition example_pitch : str :=
  lit "
# Q2 Roadmap: AI-Powered Search

## Problem
Users spend 3+ minutes finding products. Search abandonment is 40%.

## Solution
Implement semantic search with AI recommendations.

## Timeline
- Month 1: Vector database integration
- Month 2: ML model training on user behavior  " ++ nl ++
  lit "- Month 3: A/B test and rollout

## Resources
- 2 backend engineers
- 1 ML engineer
- $15k/month infra costs

## Expected Impact
- 50% reduction in search time
- 20% increase in conversion
- $2M additional revenue (projected)
".

Definition example_panel : renderable :=
  Panel (Markdown example_pitch)
        (Some (lit "[bold]Example Pitch[/bold]"))
        (Some (lit "Copy this or use: stakeholder-gpt grill --file example.txt"))
        None true.

(* ================================================================= *)
(** ** The state of a run and its monad *)

Section Pipeline.

(** The text-generation backend behind [Crew.kickoff]: its state, and the
    execution of one task by an agent.  The answer is [None] when the
    backend cannot be reached or errors.  Whatever the library passes on
    from earlier tasks of a crew is part of the backend's state. *)
Variable Backend : Type.
Variable generate : Agent -> Task -> Backend -> option str * Backend.

(** The store of agents and of tasks, the backend, and what the run has
    done so far (oldest event first). *)
Record World : Type := mkWorld {
  agents : list Agent;
  tasks : list Task;
  backend : Backend;
  history : list event
}.

(** A computation reads the surroundings, changes the world and returns or
    raises. *)
Definition M (A : Type) : Type := Env -> World -> result A * World.

Definition ret {A : Type} (a : A) : M A := fun _ w => (Ok a, w).

Definition raise {A : Type} (e : exn) : M A := fun _ w => (Raise e, w).

Definition bind {A B : Type} (m : M A) (k : A -> M B) : M B :=
  fun env w =>
    match m env w with
    | (Ok a, w') => k a env w'
    | (Raise e, w') => (Raise e, w')
    end.

Notation "x <- m ;; k" := (bind m (fun x => k))
  (at level 61, m at next level, right associativity).
Notation "m ;;; k" := (bind m (fun _ => k))
  (at level 61, right associativity).

Definition ask : M Env := fun env w => (Ok env, w).

Definition emit (e : event) : M unit :=
  fun _ w =>
    (Ok tt, {| agents := agents w; tasks := tasks w; backend := backend w;
               history := history w ++ [e] |}).

(** [console.print(r)]. *)
Definition console_print (r : renderable) : M unit := emit (Print r).

(** [Agent(...)]: a new object in the store. *)
Definition new_agent (a : Agent) : M ref :=
  fun _ w =>
    (Ok (List.length (agents w)),
     {| agents := agents w ++ [a]; tasks := tasks w; backend := backend w;
        history := history w |}).

(** [Task(...)]: a new object in the store. *)
Definition new_task (t : Task) : M ref :=
  fun _ w =>
    (Ok (List.length (tasks w)),
     {| agents := agents w; tasks := tasks w ++ [t]; backend := backend w;
        history := history w |}).

Definition get_agent (r : ref) : M Agent :=
  fun _ w =>
    match nth_error (agents w) r with
    | Some a => (Ok a, w)
    | None => (Raise ReferenceError, w)
    end.

Definition get_task (r : ref) : M Task :=
  fun _ w =>
    match nth_error (tasks w) r with
    | Some t => (Ok t, w)
    | None => (Raise ReferenceError, w)
    end.

Fixpoint replace_nth {A : Type} (n : nat) (x : A) (l : list A) : list A :=
  match l, n with
  | [], _ => []
  | _ :: l', O => x :: l'
  | y :: l', S n' => y :: replace_nth n' x l'
  end.

(** [task.output = o], on the object itself. *)
Definition set_output (r : ref) (o : str) : M unit :=
  fun _ w =>
    match nth_error (tasks w) r with
    | Some t =>
        (Ok tt,
         {| agents := agents w;
            tasks := replace_nth r
                       {| description := description t;
                          expected_output := expected_output t;
                          agent := agent t;
                          output := Some o |} (tasks w);
            backend := backend w;
            history := history w |})
    | None => (Raise ReferenceError, w)
    end.

(** One request to the backend. *)
Definition call_backend (a : Agent) (t : Task) : M (option str) :=
  fun _ w =>
    let (answer, b') := generate a t (backend w) in
    (Ok answer,
     {| agents := agents w; tasks := tasks w; backend := b';
        history := history w |}).

(** [tasks[i]] on a Python list. *)
Definition index {A : Type} (l : list A) (i : nat) : M A :=
  match nth_error l i with
  | Some x => ret x
  | None => raise IndexError
  end.

(* ================================================================= *)
(** ** [Crew.kickoff] *)

(** The agent of a task executes it: one request; the answer becomes the
    task's [output], a failure leaves [kickoff] as an exception. *)
Definition execute_task (t : ref) : M unit :=
  tk <- get_task t ;;
  a <- get_agent (agent tk) ;;
  answer <- call_backend a tk ;;
  emit (Generate t tk answer) ;;;
  match answer with
  | Some o => set_output t o
  | None => raise (GenerationFailure t)
  end.

(** The sequential process: the tasks of the crew, in the order given. *)
Fixpoint execute_tasks (ts : list ref) : M unit :=
  match ts with
  | [] => ret tt
  | t :: rest => execute_task t ;;; execute_tasks rest
  end.

Definition kickoff (c : Crew) : M unit := execute_tasks (crew_tasks c).

(* ================================================================= *)
(** ** The functions of [main.py] *)

Definition create_stakeholders : M (ref * ref * ref) :=
  env <- ask ;;
  ceo <- new_agent (ceo_agent env) ;;
  cto <- new_agent (cto_agent env) ;;
  designer <- new_agent (designer_agent env) ;;
  ret (ceo, cto, designer).

Definition create_grilling_tasks (pitch : str) (ceo cto designer : ref)
  : M (list ref) :=
  ceo_task_ref <- new_task (ceo_task pitch ceo) ;;
  cto_task_ref <- new_task (cto_task pitch cto) ;;
  designer_task_ref <- new_task (designer_task pitch designer) ;;
  ret [ceo_task_ref; cto_task_ref; designer_task_ref].

Definition create_evaluation_task (pitch questions : str) (ceo : ref)
  : M ref :=
  new_task (evaluation_task pitch questions ceo).

(** [str(t.output)] of the task object [t]. *)
Definition output_text (t : ref) : M str :=
  tk <- get_task t ;;
  ret (str_of_output (output tk)).

(** Lines 202-208: the three outputs are read from the task objects. *)
Definition all_questions (tasks : list ref) : M str :=
  t0 <- index tasks 0 ;;
  o0 <- output_text t0 ;;
  t1 <- index tasks 1 ;;
  o1 <- output_text t1 ;;
  t2 <- index tasks 2 ;;
  o2 <- output_text t2 ;;
  ret (questions_text o0 o1 o2).

(** Lines 152-161: where the pitch text comes from. *)
Definition get_pitch (pitch pitch_file : option str) : M str :=
  env <- ask ;;
  match truthy pitch_file with
  | Some path =>
      match files env path with
      | Some contents => ret contents
      | None => raise (FileError path)
      end
  | None =>
      match truthy pitch with
      | Some p => ret p
      | None =>
          console_print enter_prompt ;;;
          ret (stdin env)
      end
  end.

(** Lines 167-223: the run on an accepted pitch text. *)
Definition grill_session (pitch_text : str) : M unit :=
  console_print banner ;;;
  console_print assembling_line ;;;
  stakeholders <- create_stakeholders ;;
  let '(ceo, cto, designer) := stakeholders in
  tasks <- create_grilling_tasks pitch_text ceo cto designer ;;
  console_print starting_line ;;;
  let crew := {| crew_agents := [ceo; cto; designer]; crew_tasks := tasks |} in
  kickoff crew ;;;
  console_print ceo_header ;;;
  t0 <- index tasks 0 ;;
  o0 <- output_text t0 ;;
  console_print (Markdown o0) ;;;
  console_print cto_header ;;;
  t1 <- index tasks 1 ;;
  o1 <- output_text t1 ;;
  console_print (Markdown o1) ;;;
  console_print designer_header ;;;
  t2 <- index tasks 2 ;;
  o2 <- output_text t2 ;;
  console_print (Markdown o2) ;;;
  questions <- all_questions tasks ;;
  console_print calculating_line ;;;
  eval_task <- create_evaluation_task pitch_text questions ceo ;;
  let eval_crew := {| crew_agents := [ceo]; crew_tasks := [eval_task] |} in
  kickoff eval_crew ;;;
  oe <- output_text eval_task ;;
  console_print (assessment_panel oe) ;;;
  console_print complete_line.

(** The command [grill]: lines 163-165 reject a pitch that is empty once
    stripped. *)
Definition grill (pitch pitch_file : option str) : M unit :=
  pitch_text <- get_pitch pitch pitch_file ;;
  if nonempty (strip pitch_text) then
    grill_session pitch_text
  else
    console_print no_pitch_line ;;;
    raise (Exit 1).

(** A process runs one command: it starts with an empty store and an
    empty history. *)
Definition start (b : Backend) : World :=
  {| agents := []; tasks := []; backend := b; history := [] |}.

Definition run (env : Env) (b : Backend) (pitch pitch_file : option str)
  : result unit * World :=
  grill pitch pitch_file env (start b).

(** The answers of the backend to the four requests of a session, each
    asked in the state the one before left. *)
Definition ceo_exchange (env : Env) (pitch : str) (b : Backend) :=
  generate (ceo_agent env) (ceo_task pitch 0) b.

Definition cto_exchange (env : Env) (pitch : str) (b : Backend) :=
  generate (cto_agent env) (cto_task pitch 1)
           (snd (ceo_exchange env pitch b)).

Definition designer_exchange (env : Env) (pitch : str) (b : Backend) :=
  generate (designer_agent env) (designer_task pitch 2)
           (snd (cto_exchange env pitch b)).

Definition session_questions (env : Env) (pitch : str) (b : Backend) : str :=
  questions_text (str_of_output (fst (ceo_exchange env pitch b)))
                 (str_of_output (fst (cto_exchange env pitch b)))
                 (str_of_output (fst (designer_exchange env pitch b))).

Definition evaluation_exchange (env : Env) (pitch : str) (b : Backend) :=
  generate (ceo_agent env)
           (evaluation_task pitch (session_questions env pitch b) 0)
           (snd (designer_exchange env pitch b)).

(** The command [example]. *)
Definition example : M unit := console_print example_panel.

End Pipeline.

Arguments agents {Backend} w.
Arguments tasks {Backend} w.
Arguments backend {Backend} w.
Arguments history {Backend} w.
Arguments start {Backend} b.
Arguments run {Backend} generate env b pitch pitch_file.
Arguments grill {Backend} generate pitch pitch_file _ _.
Arguments grill_session {Backend} generate pitch_text _ _.
Arguments get_pitch {Backend} pitch pitch_file _ _.
Arguments all_questions {Backend} tasks _ _.
Arguments kickoff {Backend} generate c _ _.
Arguments execute_task {Backend} generate t _ _.
Arguments execute_tasks {Backend} generate ts _ _.
Arguments create_stakeholders {Backend} _ _.
Arguments create_grilling_tasks {Backend} pitch ceo cto designer _ _.
Arguments create_evaluation_task {Backend} pitch questions ceo _ _.
Arguments ceo_exchange {Backend} generate env pitch b.
Arguments cto_exchange {Backend} generate env pitch b.
Arguments designer_exchange {Backend} generate env pitch b.
Arguments evaluation_exchange {Backend} generate env pitch b.
Arguments session_questions {Backend} generate env pitch b.
Arguments example {Backend} _ _.

(* ================================================================= *)
(** ** Observations on a history *)

(** The requests to the backend, in order. *)
Fixpoint generations (h : list event) : list (ref * Task * option str) :=
  match h with
  | [] => []
  | Print _ :: h' => generations h'
  | Generate t q a :: h' => (t, q, a) :: generations h'
  end.

(** What was printed, in order. *)
Fixpoint printed (h : list event) : list renderable :=
  match h with
  | [] => []
  | Print r :: h' => r :: printed h'
  | Generate _ _ _ :: h' => printed h'
  end.

(** The generated texts a renderable shows. *)
Fixpoint markdown_of (r : renderable) : list str :=
  match r with
  | Text _ => []
  | Markdown s => [s]
  | Panel body _ _ _ _ => markdown_of body
  end.

(** The generated texts that were shown to the user, in order. *)
Definition surfaced (h : list event) : list str :=
  flat_map markdown_of (printed h).

(** A sequence of requests stops at the first one that fails. *)
Fixpoint until_failure (l : list (ref * Task * option str))
  : list (ref * Task * option str) :=
  match l with
  | [] => []
  | (t, q, Some o) :: l' => (t, q, Some o) :: until_failure l'
  | (t, q, None) :: _ => [(t, q, None)]
  end.

(** The events of a session, given the four answers. *)
Definition question_display (q1 q2 q3 : str) : list event :=
  [Print ceo_header; Print (Markdown q1);
   Print cto_header; Print (Markdown q2);
   Print designer_header; Print (Markdown q3);
   Print calculating_line].

Definition session_events (pitch : str) (a1 a2 a3 a4 : option str)
  : list event :=
  [Print banner; Print assembling_line; Print starting_line] ++
  Generate 0 (ceo_task pitch 0) a1 ::
  match a1 with
  | None => []
  | Some q1 =>
    Generate 1 (cto_task pitch 1) a2 ::
    match a2 with
    | None => []
    | Some q2 =>
      Generate 2 (designer_task pitch 2) a3 ::
      match a3 with
      | None => []
      | Some q3 =>
        question_display q1 q2 q3 ++
        Generate 3 (evaluation_task pitch (questions_text q1 q2 q3) 0) a4 ::
        match a4 with
        | None => []
        | Some a => [Print (assessment_panel a); Print complete_line]
        end
      end
    end
  end.

(** The four requests of a session with their answers: one per persona in
    the order of [create_stakeholders], then the evaluation. *)
Definition session_script (pitch : str) (a1 a2 a3 a4 : option str)
  : list (ref * Task * option str) :=
  [(0, ceo_task pitch 0, a1);
   (1, cto_task pitch 1, a2);
   (2, designer_task pitch 2, a3);
   (3, evaluation_task pitch
         (questions_text (str_of_output a1) (str_of_output a2)
                         (str_of_output a3)) 0, a4)].

(** The generated texts a session shows, given the four answers. *)
Definition session_surfaced (a1 a2 a3 a4 : option str) : list str :=
  match a1, a2, a3, a4 with
  | Some q1, Some q2, Some q3, Some a => [q1; q2; q3; a]
  | Some q1, Some q2, Some q3, None => [q1; q2; q3]
  | _, _, _, _ => []
  end.

Definition session_result (a1 a2 a3 a4 : option str) : result unit :=
  match a1, a2, a3, a4 with
  | None, _, _, _ => Raise (GenerationFailure 0)
  | Some _, None, _, _ => Raise (GenerationFailure 1)
  | Some _, Some _, None, _ => Raise (GenerationFailure 2)
  | Some _, Some _, Some _, None => Raise (GenerationFailure 3)
  | Some _, Some _, Some _, Some _ => Ok tt
  end.

(* ================================================================= *)
(** ** The aggregation as the specification words it *)

(** [sep.join(blocks)]. *)
Fixpoint join (sep : str) (blocks : list str) : str :=
  match blocks with
  | [] => []
  | [x] => x
  | x :: rest => x ++ sep ++ join sep rest
  end.

(** The specification's [aggregate]: for each (role, question set) entry
    a block [<Role>: <text>], the blocks separated by blank lines, and
    nothing else.  It is compared below with [questions_text], which is
    what the source composes. *)
Definition aggregate_spec (entries : list (str * str)) : str :=
  join (nl ++ nl) (map (fun e => fst e ++ lit ": " ++ snd e) entries).

(* ================================================================= *)
(** ** A stub backend and sample inputs *)

Module Sample.

Definition pitch : str := lit "Ship feature X in Q2 with 2 engineers".

Definition padded_pitch : str := lit "  Ship feature X in Q2 with 2 engineers
".

Definition assessment : str := lit "Score: 7
Strengths: ...
Gaps: ...
Improvements: ...".

Definition env : Env :=
  {| STAKEHOLDER_MODEL := None; files := fun _ => None; stdin := [] |}.

(** The answer of the stub depends on the request only: the assessment
    for an evaluation request, otherwise the questions of the agent's
    role.  The state counts the requests. *)
Definition answer (a : Agent) (t : Task) : str :=
  if str_eq_dec (expected_output t)
                (expected_output (evaluation_task [] [] 0))
  then assessment
  else if str_eq_dec (role a) (lit "CEO") then lit "CEO-Q"
  else if str_eq_dec (role a) (lit "CTO") then lit "CTO-Q"
  else lit "Designer-Q".

Definition stub (a : Agent) (t : Task) (n : nat) : option str * nat :=
  (Some (answer a t), S n).

(** A backend whose request number [k] (from 0) fails. *)
Definition failing (k : nat) (a : Agent) (t : Task) (n : nat)
  : option str * nat :=
  (if Nat.eqb n k then None else Some (answer a t), S n).

End Sample.

(** Surroundings with one readable file, which holds the example pitch,
    a model name in the environment and a pitch typed on standard input. *)
Module Disk.

Definition path : str := lit "example.txt".

Definition env : Env :=
  {| STAKEHOLDER_MODEL := Some (lit "openai/gpt-4o");
     files := fun p => if str_eq_dec p path then Some example_pitch else None;
     stdin := lit "Rewrite billing in Q3" |}.

End Disk.

(** Surroundings in which the padded pitch is typed on standard input,
    with another model. *)
Module Typed.

Definition env : Env :=
  {| STAKEHOLDER_MODEL := Some (lit "ollama/mistral");
     files := fun _ => None;
     stdin := Sample.padded_pitch |}.

End Typed.

(* ================================================================= *)
(** ** Strings: stripping and occurrence *)

Lemma lstrip_nil_iff (s : str) : lstrip s = [] <-> forallb isspace s = true.
Proof.
  induction s as [|c s IH]; simpl.
  - tauto.
  - destruct (isspace c); simpl.
    + exact IH.
    + split; discriminate.
Qed.

Lemma lstrip_all_space (s : str) : forallb isspace s = true -> lstrip s = [].
Proof. apply lstrip_nil_iff. Qed.

Lemma lstrip_suffix (s : str) : exists pre, s = pre ++ lstrip s /\ forallb isspace pre = true.
Proof.
  induction s as [|c s [pre [E H]]]; simpl.
  - exists []. split; reflexivity.
  - destruct (isspace c) eqn:Hc.
    + exists (c :: pre). simpl. rewrite Hc, H. split; [f_equal; exact E | reflexivity].
    + exists []. split; reflexivity.
Qed.

(** [s.strip()] is empty exactly when [s] is empty or has only
    white space. *)
Lemma strip_empty_iff (s : str) :
  nonempty (strip s) = false <-> forallb isspace s = true.
Proof.
  unfold strip, rstrip. split.
  - intros H.
    assert (E : lstrip (rev (lstrip s)) = []).
    { destruct (lstrip (rev (lstrip s))) as [|x l] eqn:E; [reflexivity|].
      simpl in H. destruct (rev l ++ [x]) eqn:E'; [|discriminate].
      destruct (rev l); discriminate. }
    apply lstrip_nil_iff in E. rewrite forallb_forall in E.
    destruct (lstrip_suffix s) as [pre [Es Hpre]].
    rewrite Es, forallb_app, Hpre. simpl.
    apply forallb_forall. intros x Hx. apply E, in_rev.
    rewrite rev_involutive. exact Hx.
  - intros H. rewrite (lstrip_all_space s H). reflexivity.
Qed.

Lemma starts_with_sound (n h : str) :
  starts_with n h = true -> exists post, h = n ++ post.
Proof.
  revert h; induction n as [|a n IH]; intros h H.
  - exists h. reflexivity.
  - destruct h as [|b h]; [discriminate|]. simpl in H.
    apply andb_true_iff in H. destruct H as [Hab H].
    apply N.eqb_eq in Hab. subst b.
    destruct (IH h H) as [post E]. exists post. simpl. f_equal. exact E.
Qed.

Lemma contains_sound (n h : str) : contains n h = true -> occurs n h.
Proof.
  induction h as [|b h IH]; simpl; intros H.
  - apply orb_true_iff in H. destruct H as [H|H]; [|discriminate].
    destruct (starts_with_sound _ _ H) as [post E]. exists [], post. exact E.
  - apply orb_true_iff in H. destruct H as [H|H].
    + destruct (starts_with_sound _ _ H) as [post E]. exists [], post. exact E.
    + destruct (IH H) as [pre [post E]]. exists (b :: pre), post.
      simpl. f_equal. exact E.
Qed.

(* ================================================================= *)
(** ** Histories *)

Lemma generations_app (h1 h2 : list event) :
  generations (h1 ++ h2) = generations h1 ++ generations h2.
Proof.
  induction h1 as [|[r|t q a] h1 IH]; simpl; [reflexivity | exact IH |].
  f_equal. exact IH.
Qed.

Lemma printed_app (h1 h2 : list event) :
  printed (h1 ++ h2) = printed h1 ++ printed h2.
Proof.
  induction h1 as [|[r|t q a] h1 IH]; simpl; [reflexivity | | exact IH].
  f_equal. exact IH.
Qed.

Lemma surfaced_app (h1 h2 : list event) :
  surfaced (h1 ++ h2) = surfaced h1 ++ surfaced h2.
Proof. unfold surfaced. rewrite printed_app. apply flat_map_app. Qed.

Lemma fold_left_snoc {A : Type} (l h : list A) :
  fold_left (fun h e => h ++ [e]) l h = h ++ l.
Proof.
  revert h; induction l as [|e l IH]; intros h; simpl.
  - symmetry. apply app_nil_r.
  - rewrite IH, <- app_assoc. reflexivity.
Qed.

Lemma until_failure_incl (l : list (ref * Task * option str)) x :
  In x (until_failure l) -> In x l.
Proof.
  induction l as [|[[t q] [o|]] l IH]; simpl; intros H.
  - exact H.
  - destruct H as [H|H]; [left; exact H | right; exact (IH H)].
  - destruct H as [H|[]]. left; exact H.
Qed.

(* ================================================================= *)
(** ** The requests are told apart *)

Lemma ceo_task_not_evaluation p c p' qs c' :
  ceo_task p c <> evaluation_task p' qs c'.
Proof. intros H. apply (f_equal expected_output) in H. vm_compute in H. discriminate. Qed.

Lemma cto_task_not_evaluation p c p' qs c' :
  cto_task p c <> evaluation_task p' qs c'.
Proof. intros H. apply (f_equal expected_output) in H. vm_compute in H. discriminate. Qed.

Lemma designer_task_not_evaluation p c p' qs c' :
  designer_task p c <> evaluation_task p' qs c'.
Proof. intros H. apply (f_equal expected_output) in H. vm_compute in H. discriminate. Qed.

Lemma ceo_task_pitch_inj p c p' c' : ceo_task p c = ceo_task p' c' -> p = p'.
Proof.
  intros H. apply (f_equal description) in H. cbn [description ceo_task] in H.
  apply app_inv_head in H. apply app_inv_tail in H. exact H.
Qed.

Lemma cto_task_pitch_inj p c p' c' : cto_task p c = cto_task p' c' -> p = p'.
Proof.
  intros H. apply (f_equal description) in H. cbn [description cto_task] in H.
  apply app_inv_head in H. apply app_inv_tail in H. exact H.
Qed.

Lemma designer_task_pitch_inj p c p' c' :
  designer_task p c = designer_task p' c' -> p = p'.
Proof.
  intros H. apply (f_equal description) in H. cbn [description designer_task] in H.
  apply app_inv_head in H. apply app_inv_tail in H. exact H.
Qed.

Lemma evaluation_task_pitch_inj p qs c p' c' :
  evaluation_task p qs c = evaluation_task p' qs c' -> p = p'.
Proof.
  intros H. apply (f_equal description) in H.
  cbn [description evaluation_task] in H.
  apply app_inv_head in H. apply app_inv_tail in H. exact H.
Qed.

(* ================================================================= *)
(** ** What a run does *)

Section Runs.

Context {Backend : Type}.
Variable generate : Agent -> Task -> Backend -> option str * Backend.

(** Reading the pitch touches neither the store nor the backend; it
    prints at most the prompt for standard input. *)
Lemma get_pitch_world (pitch pitch_file : option str) (env : Env)
      (b : Backend) (r : result str) (w0 : World Backend) :
  get_pitch pitch pitch_file env (start b) = (r, w0) ->
  w0 = {| agents := []; tasks := []; backend := b; history := history w0 |}
  /\ (history w0 = [] \/ history w0 = [Print enter_prompt]).
Proof.
  unfold get_pitch, bind, ask, ret, raise, console_print, emit, start.
  destruct (truthy pitch_file) as [path|].
  - destruct (files env path); intros H; inversion H; subst; simpl; auto.
  - destruct (truthy pitch); intros H; inversion H; subst; simpl; auto.
Qed.

(** The pitch that is read does not depend on the backend. *)
Lemma get_pitch_backend (pitch pitch_file : option str) (env : Env)
      (b b' : Backend) :
  fst (get_pitch pitch pitch_file env (start b))
  = fst (get_pitch pitch pitch_file env (start b'))
  /\ history (snd (get_pitch pitch pitch_file env (start b)))
     = history (snd (get_pitch pitch pitch_file env (start b'))).
Proof.
  unfold get_pitch, bind, ask, ret, raise, console_print, emit, start.
  destruct (truthy pitch_file) as [path|].
  - destruct (files env path); simpl; auto.
  - destruct (truthy pitch); simpl; auto.
Qed.

(** The session, in closed form: its result, its events after those of
    the world it starts in, and the agents it leaves in the store. *)
Lemma grill_session_closed (pitch : str) (env : Env) (b : Backend)
      (h0 : list event) :
  exists w,
    grill_session generate pitch env
      {| agents := []; tasks := []; backend := b; history := h0 |}
    = (session_result (fst (ceo_exchange generate env pitch b))
                      (fst (cto_exchange generate env pitch b))
                      (fst (designer_exchange generate env pitch b))
                      (fst (evaluation_exchange generate env pitch b)), w)
    /\ history w
       = fold_left (fun h e => h ++ [e])
           (session_events pitch
              (fst (ceo_exchange generate env pitch b))
              (fst (cto_exchange generate env pitch b))
              (fst (designer_exchange generate env pitch b))
              (fst (evaluation_exchange generate env pitch b))) h0
    /\ agents w = [ceo_agent env; cto_agent env; designer_agent env].
Proof.
  unfold evaluation_exchange, session_questions, designer_exchange,
    cto_exchange, ceo_exchange.
  destruct (generate (ceo_agent env) (ceo_task pitch 0) b)
    as [a1 b1] eqn:E1.
  cbn [fst snd].
  destruct (generate (cto_agent env) (cto_task pitch 1) b1)
    as [a2 b2] eqn:E2.
  cbn [fst snd].
  destruct (generate (designer_agent env) (designer_task pitch 2) b2)
    as [a3 b3] eqn:E3.
  cbn [fst snd].
  match goal with
  | |- context [generate ?a ?t b3] =>
      destruct (generate a t b3) as [a4 b4] eqn:E4
  end.
  cbn [fst snd].
  lazy -[lit] in E1, E2, E3.
  lazy -[lit].
  rewrite E1.
  destruct a1 as [q1|];
    [|eexists; split; [reflexivity|split; reflexivity]].
  rewrite E2.
  destruct a2 as [q2|];
    [|eexists; split; [reflexivity|split; reflexivity]].
  rewrite E3.
  destruct a3 as [q3|];
    [|eexists; split; [reflexivity|split; reflexivity]].
  lazy -[lit] in E4 |- *.
  rewrite E4.
  destruct a4 as [q4|]; eexists; (split; [reflexivity|split; reflexivity]).
Qed.

(** A run on a pitch that is accepted. *)
Lemma run_accepted (env : Env) (b : Backend) (pitch pitch_file : option str)
      (pitch_text : str) (w0 : World Backend) :
  get_pitch pitch pitch_file env (start b) = (Ok pitch_text, w0) ->
  nonempty (strip pitch_text) = true ->
  exists w,
    run generate env b pitch pitch_file
    = (session_result (fst (ceo_exchange generate env pitch_text b))
                      (fst (cto_exchange generate env pitch_text b))
                      (fst (designer_exchange generate env pitch_text b))
                      (fst (evaluation_exchange generate env pitch_text b)),
       w)
    /\ history w
       = history w0 ++
         session_events pitch_text
           (fst (ceo_exchange generate env pitch_text b))
           (fst (cto_exchange generate env pitch_text b))
           (fst (designer_exchange generate env pitch_text b))
           (fst (evaluation_exchange generate env pitch_text b))
    /\ agents w = [ceo_agent env; cto_agent env; designer_agent env].
Proof.
  intros Hsrc Hne.
  destruct (get_pitch_world _ _ _ _ _ _ Hsrc) as [Hw0 _].
  destruct (grill_session_closed pitch_text env b (history w0))
    as [w [Hrun [Hh Ha]]].
  exists w. unfold run, grill, bind. rewrite Hsrc, Hne, Hw0.
  rewrite Hrun, Hh, fold_left_snoc. auto.
Qed.

(** A run on a pitch that is rejected. *)
Lemma run_rejected (env : Env) (b : Backend) (pitch pitch_file : option str)
      (pitch_text : str) (w0 : World Backend) :
  get_pitch pitch pitch_file env (start b) = (Ok pitch_text, w0) ->
  nonempty (strip pitch_text) = false ->
  run generate env b pitch pitch_file
  = (Raise (Exit 1),
     {| agents := []; tasks := []; backend := b;
        history := history w0 ++ [Print no_pitch_line] |}).
Proof.
  intros Hsrc He.
  destruct (get_pitch_world _ _ _ _ _ _ Hsrc) as [Hw0 _].
  unfold run, grill, bind. rewrite Hsrc, He, Hw0. reflexivity.
Qed.

(** A run in which the pitch cannot be read. *)
Lemma run_unread (env : Env) (b : Backend) (pitch pitch_file : option str)
      (e : exn) (w0 : World Backend) :
  get_pitch pitch pitch_file env (start b) = (Raise e, w0) ->
  run generate env b pitch pitch_file = (Raise e, w0).
Proof. intros Hsrc. unfold run, grill, bind. rewrite Hsrc. reflexivity. Qed.

End Runs.

(** An event of a persona's request is not an evaluation request. *)
Ltac not_evaluation H :=
  apply (f_equal (fun x => snd (fst x))) in H; cbn [fst snd] in H;
  solve [ exact (ceo_task_not_evaluation _ _ _ _ _ H)
        | exact (cto_task_not_evaluation _ _ _ _ _ H)
        | exact (designer_task_not_evaluation _ _ _ _ _ H) ].

(* ================================================================= *)
(** ** The orchestration *)

Section Orchestration.

Context {Backend : Type}.
Variable generate : Agent -> Task -> Backend -> option str * Backend.

Lemma generations_session_events (p : str) (a1 a2 a3 a4 : option str) :
  generations (session_events p a1 a2 a3 a4)
  = until_failure (session_script p a1 a2 a3 a4).
Proof. destruct a1, a2, a3, a4; reflexivity. Qed.

Lemma surfaced_session_events (p : str) (a1 a2 a3 a4 : option str) :
  surfaced (session_events p a1 a2 a3 a4) = session_surfaced a1 a2 a3 a4.
Proof. destruct a1, a2, a3, a4; reflexivity. Qed.

(** The requests of an accepted run. *)
Lemma run_generations (env : Env) (b : Backend)
      (pitch pitch_file : option str) (pitch_text : str)
      (w0 : World Backend) :
  get_pitch pitch pitch_file env (start b) = (Ok pitch_text, w0) ->
  nonempty (strip pitch_text) = true ->
  generations (history (snd (run generate env b pitch pitch_file)))
  = until_failure
      (session_script pitch_text
         (fst (ceo_exchange generate env pitch_text b))
         (fst (cto_exchange generate env pitch_text b))
         (fst (designer_exchange generate env pitch_text b))
         (fst (evaluation_exchange generate env pitch_text b))).
Proof.
  intros Hsrc Hne.
  destruct (run_accepted generate _ _ _ _ _ _ Hsrc Hne) as [w [Hrun [Hh _]]].
  rewrite Hrun. cbn [snd]. rewrite Hh, generations_app.
  rewrite generations_session_events.
  destruct (get_pitch_world _ _ _ _ _ _ Hsrc) as [_ [E|E]]; rewrite E;
    reflexivity.
Qed.

(** The generated texts an accepted run shows. *)
Lemma run_surfaced (env : Env) (b : Backend)
      (pitch pitch_file : option str) (pitch_text : str)
      (w0 : World Backend) :
  get_pitch pitch pitch_file env (start b) = (Ok pitch_text, w0) ->
  nonempty (strip pitch_text) = true ->
  surfaced (history (snd (run generate env b pitch pitch_file)))
  = session_surfaced
      (fst (ceo_exchange generate env pitch_text b))
      (fst (cto_exchange generate env pitch_text b))
      (fst (designer_exchange generate env pitch_text b))
      (fst (evaluation_exchange generate env pitch_text b)).
Proof.
  intros Hsrc Hne.
  destruct (run_accepted generate _ _ _ _ _ _ Hsrc Hne) as [w [Hrun [Hh _]]].
  rewrite Hrun. cbn [snd]. rewrite Hh, surfaced_app.
  rewrite surfaced_session_events.
  destruct (get_pitch_world _ _ _ _ _ _ Hsrc) as [_ [E|E]]; rewrite E;
    reflexivity.
Qed.

(** The result of an accepted run. *)
Lemma run_result (env : Env) (b : Backend)
      (pitch pitch_file : option str) (pitch_text : str)
      (w0 : World Backend) :
  get_pitch pitch pitch_file env (start b) = (Ok pitch_text, w0) ->
  nonempty (strip pitch_text) = true ->
  fst (run generate env b pitch pitch_file)
  = session_result
      (fst (ceo_exchange generate env pitch_text b))
      (fst (cto_exchange generate env pitch_text b))
      (fst (designer_exchange generate env pitch_text b))
      (fst (evaluation_exchange generate env pitch_text b)).
Proof.
  intros Hsrc Hne.
  destruct (run_accepted generate _ _ _ _ _ _ Hsrc Hne) as [w [Hrun _]].
  rewrite Hrun. reflexivity.
Qed.

(** The agents an accepted run leaves in the store. *)
Lemma run_agents (env : Env) (b : Backend)
      (pitch pitch_file : option str) (pitch_text : str)
      (w0 : World Backend) :
  get_pitch pitch pitch_file env (start b) = (Ok pitch_text, w0) ->
  nonempty (strip pitch_text) = true ->
  agents (snd (run generate env b pitch pitch_file))
  = [ceo_agent env; cto_agent env; designer_agent env].
Proof.
  intros Hsrc Hne.
  destruct (run_accepted generate _ _ _ _ _ _ Hsrc Hne) as [w [Hrun [_ Ha]]].
  rewrite Hrun. exact Ha.
Qed.

(** C1. On every pitch that is not empty once stripped, the requests of
    the run are the question request of the CEO, of the CTO and of the
    Head of Design, in the order of the registry, and then the single
    evaluation request, the sequence stopping at a request the backend
    fails; so when the three personas are answered, exactly three question
    requests have been made and answered before the evaluation request,
    which is made exactly once. *)
Theorem questions_before_evaluation (env : Env) (b : Backend)
        (pitch pitch_file : option str) (pitch_text : str)
        (w0 : World Backend) :
  get_pitch pitch pitch_file env (start b) = (Ok pitch_text, w0) ->
  nonempty (strip pitch_text) = true ->
  let w := snd (run generate env b pitch pitch_file) in
  let a1 := fst (ceo_exchange generate env pitch_text b) in
  let a2 := fst (cto_exchange generate env pitch_text b) in
  let a3 := fst (designer_exchange generate env pitch_text b) in
  let a4 := fst (evaluation_exchange generate env pitch_text b) in
  agents w = [ceo_agent env; cto_agent env; designer_agent env]
  /\ generations (history w)
     = until_failure (session_script pitch_text a1 a2 a3 a4)
  /\ (forall q1 q2 q3,
        a1 = Some q1 -> a2 = Some q2 -> a3 = Some q3 ->
        generations (history w)
        = [(0, ceo_task pitch_text 0, Some q1);
           (1, cto_task pitch_text 1, Some q2);
           (2, designer_task pitch_text 2, Some q3);
           (3, evaluation_task pitch_text (questions_text q1 q2 q3) 0, a4)]).
Proof.
  intros Hsrc Hne w a1 a2 a3 a4.
  split; [exact (run_agents env b _ _ _ _ Hsrc Hne)|].
  pose proof (run_generations env b _ _ _ _ Hsrc Hne) as Hg.
  fold w a1 a2 a3 a4 in Hg.
  split; [exact Hg|].
  intros q1 q2 q3 E1 E2 E3. rewrite Hg, E1, E2, E3.
  destruct a4; reflexivity.
Qed.

(** C2. A pitch that is empty or has only white space is rejected with
    [typer.Exit(1)] after the message that no pitch was provided: no
    request reaches the backend, whose state is untouched, and no agent
    and no task is created. *)
Theorem blank_pitch_rejected (env : Env) (b : Backend)
        (pitch pitch_file : option str) (pitch_text : str)
        (w0 : World Backend) :
  get_pitch pitch pitch_file env (start b) = (Ok pitch_text, w0) ->
  forallb isspace pitch_text = true ->
  let r := fst (run generate env b pitch pitch_file) in
  let w := snd (run generate env b pitch pitch_file) in
  r = Raise (Exit 1)
  /\ generations (history w) = []
  /\ surfaced (history w) = []
  /\ history w = history w0 ++ [Print no_pitch_line]
  /\ backend w = b /\ agents w = [] /\ tasks w = [].
Proof.
  intros Hsrc Hblank r w. subst r w.
  apply strip_empty_iff in Hblank.
  rewrite (run_rejected generate _ _ _ _ _ _ Hsrc Hblank). cbn [fst snd].
  cbn [history backend agents tasks].
  rewrite generations_app, surfaced_app.
  destruct (get_pitch_world _ _ _ _ _ _ Hsrc) as [_ [E|E]]; rewrite E;
    repeat split; reflexivity.
Qed.

(** C3. When the request of a persona fails, the run ends with the
    exception of that failure, no evaluation request is ever made and no
    generated text has been shown.  In every accepted run, either the run
    returns and the three question sets and the assessment have been
    shown, in that order, or the run ends with a generation failure. *)
Theorem persona_failure_aborts (env : Env) (b : Backend)
        (pitch pitch_file : option str) (pitch_text : str)
        (w0 : World Backend) :
  get_pitch pitch pitch_file env (start b) = (Ok pitch_text, w0) ->
  nonempty (strip pitch_text) = true ->
  let r := fst (run generate env b pitch pitch_file) in
  let w := snd (run generate env b pitch pitch_file) in
  (forall t q,
      In (t, q, None) (generations (history w)) ->
      In q [ceo_task pitch_text 0; cto_task pitch_text 1;
            designer_task pitch_text 2] ->
      r = Raise (GenerationFailure t)
      /\ (forall t' p' qs c a,
             ~ In (t', evaluation_task p' qs c, a) (generations (history w)))
      /\ surfaced (history w) = [])
  /\ ((r = Ok tt
       /\ exists q1 q2 q3 a,
            surfaced (history w) = [q1; q2; q3; a]
            /\ generations (history w)
               = [(0, ceo_task pitch_text 0, Some q1);
                  (1, cto_task pitch_text 1, Some q2);
                  (2, designer_task pitch_text 2, Some q3);
                  (3, evaluation_task pitch_text (questions_text q1 q2 q3) 0,
                   Some a)])
      \/ exists t, r = Raise (GenerationFailure t)).
Proof.
  intros Hsrc Hne r w. subst r w.
  rewrite (run_result env b _ _ _ _ Hsrc Hne).
  rewrite (run_generations env b _ _ _ _ Hsrc Hne).
  rewrite (run_surfaced env b _ _ _ _ Hsrc Hne).
  destruct (fst (ceo_exchange generate env pitch_text b)) as [q1|];
  [destruct (fst (cto_exchange generate env pitch_text b)) as [q2|];
   [destruct (fst (designer_exchange generate env pitch_text b)) as [q3|];
    [destruct (fst (evaluation_exchange generate env pitch_text b)) as [a|]
    |]|]|];
  cbn [session_result session_surfaced session_script until_failure
       str_of_output].
  - split.
    + intros t q Hin _. simpl in Hin.
      repeat (destruct Hin as [Hin|Hin]; [discriminate|]). destruct Hin.
    + left. split; [reflexivity|]. exists q1, q2, q3, a. split; reflexivity.
  - split.
    + intros t q Hin Hq. simpl in Hin.
      repeat (destruct Hin as [Hin|Hin]; [try discriminate|]);
        [|destruct Hin].
      exfalso. apply (f_equal (fun x => snd (fst x))) in Hin.
      cbn [fst snd] in Hin. subst q. simpl in Hq.
      destruct Hq as [Hq|[Hq|[Hq|[]]]];
        [ exact (ceo_task_not_evaluation _ _ _ _ _ Hq)
        | exact (cto_task_not_evaluation _ _ _ _ _ Hq)
        | exact (designer_task_not_evaluation _ _ _ _ _ Hq) ].
    + right. exists 3. reflexivity.
  - split.
    + intros t q Hin _. simpl in Hin.
      repeat (destruct Hin as [Hin|Hin]; [try discriminate|]);
        [|destruct Hin].
      apply (f_equal (fun x => fst (fst x))) in Hin. cbn [fst snd] in Hin.
      subst t. split; [reflexivity|]. split; [|reflexivity].
      intros t' p' qs c a Hev. simpl in Hev.
      destruct Hev as [Hev|[Hev|[Hev|[]]]]; not_evaluation Hev.
    + right. exists 2. reflexivity.
  - split.
    + intros t q Hin _. simpl in Hin.
      repeat (destruct Hin as [Hin|Hin]; [try discriminate|]);
        [|destruct Hin].
      apply (f_equal (fun x => fst (fst x))) in Hin. cbn [fst snd] in Hin.
      subst t. split; [reflexivity|]. split; [|reflexivity].
      intros t' p' qs c a Hev. simpl in Hev.
      destruct Hev as [Hev|[Hev|[]]]; not_evaluation Hev.
    + right. exists 1. reflexivity.
  - split.
    + intros t q Hin _. simpl in Hin.
      destruct Hin as [Hin|[]].
      apply (f_equal (fun x => fst (fst x))) in Hin. cbn [fst snd] in Hin.
      subst t. split; [reflexivity|]. split; [|reflexivity].
      intros t' p' qs c a Hev. simpl in Hev.
      destruct Hev as [Hev|[]]; not_evaluation Hev.
    + right. exists 0. reflexivity.
Qed.

(** The source's composition is the specification's aggregation of the
    three outputs under the labels CEO, CTO and Designer, between two
    newlines. *)
Lemma questions_text_aggregate (q1 q2 q3 : str) :
  questions_text q1 q2 q3
  = nl ++ aggregate_spec [(lit "CEO", q1); (lit "CTO", q2);
                          (lit "Designer", q3)] ++ nl.
Proof.
  unfold questions_text, aggregate_spec. cbn [map join fst snd].
  rewrite <- !app_assoc. reflexivity.
Qed.

(** C4, as amended.  In a run whose three personas are answered, the
    questions text of the evaluation request, the fourth and last request,
    is a newline, then one block per persona in registry order, each a
    fixed label, a colon, a space and the persona's output, the blocks
    separated by blank lines, then a newline.  The labels are the literals
    CEO, CTO and Designer: the first two are the roles of their agents, the
    third is not the role of the design agent, which is Head of Design. *)
Theorem composite_questions_text (env : Env) (b : Backend)
        (pitch pitch_file : option str) (pitch_text : str)
        (w0 : World Backend) (q1 q2 q3 : str) :
  get_pitch pitch pitch_file env (start b) = (Ok pitch_text, w0) ->
  nonempty (strip pitch_text) = true ->
  fst (ceo_exchange generate env pitch_text b) = Some q1 ->
  fst (cto_exchange generate env pitch_text b) = Some q2 ->
  fst (designer_exchange generate env pitch_text b) = Some q3 ->
  let w := snd (run generate env b pitch pitch_file) in
  (exists a,
      nth_error (generations (history w)) 3
      = Some (3, evaluation_task pitch_text
                   (nl ++ aggregate_spec [(lit "CEO", q1); (lit "CTO", q2);
                                          (lit "Designer", q3)] ++ nl) 0, a))
  /\ List.length (generations (history w)) = 4
  /\ role (ceo_agent env) = lit "CEO"
  /\ role (cto_agent env) = lit "CTO"
  /\ role (designer_agent env) = lit "Head of Design"
  /\ role (designer_agent env) <> lit "Designer".
Proof.
  intros Hsrc Hne E1 E2 E3 w. subst w.
  rewrite (run_generations env b _ _ _ _ Hsrc Hne), E1, E2, E3.
  rewrite <- questions_text_aggregate.
  split.
  - exists (fst (evaluation_exchange generate env pitch_text b)).
    destruct (fst (evaluation_exchange generate env pitch_text b));
      reflexivity.
  - split.
    + destruct (fst (evaluation_exchange generate env pitch_text b));
        reflexivity.
    + repeat split. vm_compute. discriminate.
Qed.

(** C7. With a backend whose answer depends on the request only, two
    invocations on the same arguments and surroundings, from whatever
    states of the backend (so also the second from the state the first
    left), end with the same result and the same history: the same
    requests with the same answers, and the same things printed, among
    them the question sets and the assessment. *)
Theorem pipeline_deterministic (env : Env) (b b' : Backend)
        (pitch pitch_file : option str) :
  (forall a t s s', fst (generate a t s) = fst (generate a t s')) ->
  fst (run generate env b pitch pitch_file)
  = fst (run generate env b' pitch pitch_file)
  /\ history (snd (run generate env b pitch pitch_file))
     = history (snd (run generate env b' pitch pitch_file)).
Proof.
  intros Hdet.
  destruct (get_pitch_backend pitch pitch_file env b b') as [Hr Hh].
  destruct (get_pitch pitch pitch_file env (start b)) as [r w0] eqn:Hsrc.
  destruct (get_pitch pitch pitch_file env (start b')) as [r' w0'] eqn:Hsrc'.
  cbn [fst snd] in Hr, Hh. subst r'.
  destruct r as [pitch_text|e].
  - destruct (nonempty (strip pitch_text)) eqn:Hne.
    + destruct (run_accepted generate _ _ _ _ _ _ Hsrc Hne)
        as [w [Hrun [Hw _]]].
      destruct (run_accepted generate _ _ _ _ _ _ Hsrc' Hne)
        as [w' [Hrun' [Hw' _]]].
      rewrite Hrun, Hrun'. cbn [fst snd]. rewrite Hw, Hw', Hh.
      assert (E1 : fst (ceo_exchange generate env pitch_text b)
                   = fst (ceo_exchange generate env pitch_text b'))
        by apply Hdet.
      assert (E2 : fst (cto_exchange generate env pitch_text b)
                   = fst (cto_exchange generate env pitch_text b'))
        by apply Hdet.
      assert (E3 : fst (designer_exchange generate env pitch_text b)
                   = fst (designer_exchange generate env pitch_text b'))
        by apply Hdet.
      assert (E4 : fst (evaluation_exchange generate env pitch_text b)
                   = fst (evaluation_exchange generate env pitch_text b')).
      { unfold evaluation_exchange, session_questions.
        rewrite E1, E2, E3. apply Hdet. }
      rewrite E1, E2, E3, E4. split; reflexivity.
    + rewrite (run_rejected generate _ _ _ _ _ _ Hsrc Hne).
      rewrite (run_rejected generate _ _ _ _ _ _ Hsrc' Hne).
      cbn [fst snd history]. rewrite Hh. split; reflexivity.
  - rewrite (run_unread generate _ _ _ _ _ _ Hsrc).
    rewrite (run_unread generate _ _ _ _ _ _ Hsrc').
    cbn [fst snd]. split; [reflexivity | exact Hh].
Qed.

(** C8. In every accepted run the request of the CEO is made, and after
    each answered persona the request of the next one, and after the three
    answers the evaluation request; nothing else is requested.  Each
    persona's request is executed by that persona's agent and its
    description is the fixed text of that persona with the pitch text in
    the place of the substitution: it asks for 2-3 tough questions, names
    the persona whose questions are wanted and lists the persona's angles
    (return on investment, timing and what is not done for the CEO; scale,
    technical debt and integration risks for the CTO; validation with
    users and UX complexity for the Head of Design).  The description of
    the evaluation request holds the pitch text and the whole questions
    text composed from the three answers. *)
Theorem requests_follow_templates (env : Env) (b : Backend)
        (pitch pitch_file : option str) (pitch_text : str)
        (w0 : World Backend) :
  get_pitch pitch pitch_file env (start b) = (Ok pitch_text, w0) ->
  nonempty (strip pitch_text) = true ->
  let w := snd (run generate env b pitch pitch_file) in
  let a1 := fst (ceo_exchange generate env pitch_text b) in
  let a2 := fst (cto_exchange generate env pitch_text b) in
  let a3 := fst (designer_exchange generate env pitch_text b) in
  let a4 := fst (evaluation_exchange generate env pitch_text b) in
  (exists q,
      nth_error (generations (history w)) 0 = Some (0, q, a1)
      /\ nth_error (agents w) (agent q) = Some (ceo_agent env)
      /\ description q = ceo_prompt_head ++ pitch_text ++ ceo_prompt_tail
      /\ occurs (lit "2-3") (expected_output q))
  /\ (a1 <> None ->
      exists q,
        nth_error (generations (history w)) 1 = Some (1, q, a2)
        /\ nth_error (agents w) (agent q) = Some (cto_agent env)
        /\ description q = cto_prompt_head ++ pitch_text ++ cto_prompt_tail
        /\ occurs (lit "2-3") (expected_output q))
  /\ (a1 <> None -> a2 <> None ->
      exists q,
        nth_error (generations (history w)) 2 = Some (2, q, a3)
        /\ nth_error (agents w) (agent q) = Some (designer_agent env)
        /\ description q
           = designer_prompt_head ++ pitch_text ++ designer_prompt_tail
        /\ occurs (lit "2-3") (expected_output q))
  /\ (forall q1 q2 q3,
        a1 = Some q1 -> a2 = Some q2 -> a3 = Some q3 ->
        exists q,
          nth_error (generations (history w)) 3 = Some (3, q, a4)
          /\ nth_error (agents w) (agent q) = Some (ceo_agent env)
          /\ description q
             = evaluation_prompt_head ++ pitch_text ++
               evaluation_prompt_middle ++ questions_text q1 q2 q3 ++
               evaluation_prompt_tail)
  /\ (forall t q a,
        In (t, q, a) (generations (history w)) ->
        (nth_error (agents w) (agent q) = Some (ceo_agent env)
         /\ description q = ceo_prompt_head ++ pitch_text ++ ceo_prompt_tail
         /\ occurs (lit "2-3") (expected_output q))
        \/ (nth_error (agents w) (agent q) = Some (cto_agent env)
            /\ description q
               = cto_prompt_head ++ pitch_text ++ cto_prompt_tail
            /\ occurs (lit "2-3") (expected_output q))
        \/ (nth_error (agents w) (agent q) = Some (designer_agent env)
            /\ description q
               = designer_prompt_head ++ pitch_text ++ designer_prompt_tail
            /\ occurs (lit "2-3") (expected_output q))
        \/ (exists questions,
              questions
              = questions_text (str_of_output a1) (str_of_output a2)
                               (str_of_output a3)
              /\ description q
                 = evaluation_prompt_head ++ pitch_text ++
                   evaluation_prompt_middle ++ questions ++
                   evaluation_prompt_tail))
  /\ (occurs (lit "ask 2-3 tough business questions") ceo_prompt_head
      /\ occurs (lit "Ask questions a CEO would ask") ceo_prompt_tail
      /\ occurs (lit "What's the ROI") ceo_prompt_tail
      /\ occurs (lit "What's the market timing?") ceo_prompt_tail
      /\ occurs (lit "What are we choosing NOT to do by pursuing this?")
                ceo_prompt_tail)
  /\ (occurs (lit "ask 2-3 tough technical questions") cto_prompt_head
      /\ occurs (lit "Ask questions a CTO would ask") cto_prompt_tail
      /\ occurs (lit "How does this scale?") cto_prompt_tail
      /\ occurs (lit "What technical debt are we taking on?")
                cto_prompt_tail
      /\ occurs (lit "What are the integration risks with existing systems?")
                cto_prompt_tail)
  /\ (occurs (lit "ask 2-3 tough user experience questions")
             designer_prompt_head
      /\ occurs (lit "Ask questions a Head of Design would ask")
                designer_prompt_tail
      /\ occurs (lit "How have we validated this with users?")
                designer_prompt_tail
      /\ occurs (lit "What's the UX complexity for end users?")
                designer_prompt_tail).
Proof.
  intros Hsrc Hne w a1 a2 a3 a4. subst w.
  rewrite (run_generations env b _ _ _ _ Hsrc Hne).
  rewrite (run_agents env b _ _ _ _ Hsrc Hne).
  fold a1 a2 a3 a4.
  assert (H23 : forall q, expected_output q = expected_output (ceo_task [] 0)
                          \/ expected_output q
                             = expected_output (cto_task [] 0)
                          \/ expected_output q
                             = expected_output (designer_task [] 0) ->
                          occurs (lit "2-3") (expected_output q)).
  { intros q [E|[E|E]]; rewrite E; apply contains_sound; vm_compute;
      reflexivity. }
  split; [|split; [|split; [|split; [|split]]]].
  - exists (ceo_task pitch_text 0).
    split; [destruct a1; reflexivity|].
    split; [reflexivity|]. split; [reflexivity|].
    apply H23. left. reflexivity.
  - intros H1. destruct a1 as [q1|]; [|congruence].
    exists (cto_task pitch_text 1).
    split; [destruct a2; reflexivity|].
    split; [reflexivity|]. split; [reflexivity|].
    apply H23. right; left. reflexivity.
  - intros H1 H2. destruct a1 as [q1|]; [|congruence].
    destruct a2 as [q2|]; [|congruence].
    exists (designer_task pitch_text 2).
    split; [destruct a3; reflexivity|].
    split; [reflexivity|]. split; [reflexivity|].
    apply H23. right; right. reflexivity.
  - intros q1 q2 q3 E1 E2 E3. rewrite E1, E2, E3.
    exists (evaluation_task pitch_text (questions_text q1 q2 q3) 0).
    split; [destruct a4; reflexivity|].
    split; reflexivity.
  - intros t q a Hin. apply until_failure_incl in Hin.
    unfold session_script in Hin. cbn [In] in Hin.
    destruct Hin as [Hin|[Hin|[Hin|[Hin|[]]]]];
      apply (f_equal (fun x => snd (fst x))) in Hin; cbn [fst snd] in Hin;
      subst q.
    + left. split; [reflexivity|]. split; [reflexivity|].
      apply H23. left. reflexivity.
    + right; left. split; [reflexivity|]. split; [reflexivity|].
      apply H23. right; left. reflexivity.
    + right; right; left. split; [reflexivity|]. split; [reflexivity|].
      apply H23. right; right. reflexivity.
    + right; right; right. eexists. split; reflexivity.
  - repeat split; apply contains_sound; vm_compute; reflexivity.
Qed.


(** C10. The pitch text is stripped for the test of emptiness only: every
    request of an accepted run is built from the pitch text as it was
    read, between the fixed parts of its template, and when stripping
    would change the text, no request of the run is the one built from the
    stripped text. *)
Theorem pitch_embedded_untrimmed (env : Env) (b : Backend)
        (pitch pitch_file : option str) (pitch_text : str)
        (w0 : World Backend) :
  get_pitch pitch pitch_file env (start b) = (Ok pitch_text, w0) ->
  nonempty (strip pitch_text) = true ->
  let w := snd (run generate env b pitch pitch_file) in
  forall t q a,
    In (t, q, a) (generations (history w)) ->
    (description q = ceo_prompt_head ++ pitch_text ++ ceo_prompt_tail
     \/ description q = cto_prompt_head ++ pitch_text ++ cto_prompt_tail
     \/ description q
        = designer_prompt_head ++ pitch_text ++ designer_prompt_tail
     \/ exists questions,
          description q
          = evaluation_prompt_head ++ pitch_text ++
            evaluation_prompt_middle ++ questions ++ evaluation_prompt_tail)
    /\ (strip pitch_text <> pitch_text ->
        forall c questions,
          q <> ceo_task (strip pitch_text) c
          /\ q <> cto_task (strip pitch_text) c
          /\ q <> designer_task (strip pitch_text) c
          /\ (q = evaluation_task pitch_text questions c ->
              q <> evaluation_task (strip pitch_text) questions c)).
Proof.
  intros Hsrc Hne w. subst w. intros t q a.
  rewrite (run_generations env b _ _ _ _ Hsrc Hne).
  intros Hin. apply until_failure_incl in Hin.
  unfold session_script in Hin. cbn [In] in Hin.
  destruct Hin as [Hin|[Hin|[Hin|[Hin|[]]]]];
    apply (f_equal (fun x => snd (fst x))) in Hin; cbn [fst snd] in Hin;
    subst q.
  - split; [left; reflexivity|]. intros Hs c questions.
    repeat split; intros H.
    + apply ceo_task_pitch_inj in H. congruence.
    + apply (f_equal expected_output) in H. vm_compute in H. discriminate.
    + apply (f_equal expected_output) in H. vm_compute in H. discriminate.
    + exfalso. exact (ceo_task_not_evaluation _ _ _ _ _ H).
  - split; [right; left; reflexivity|]. intros Hs c questions.
    repeat split; intros H.
    + apply (f_equal expected_output) in H. vm_compute in H. discriminate.
    + apply cto_task_pitch_inj in H. congruence.
    + apply (f_equal expected_output) in H. vm_compute in H. discriminate.
    + exfalso. exact (cto_task_not_evaluation _ _ _ _ _ H).
  - split; [right; right; left; reflexivity|]. intros Hs c questions.
    repeat split; intros H.
    + apply (f_equal expected_output) in H. vm_compute in H. discriminate.
    + apply (f_equal expected_output) in H. vm_compute in H. discriminate.
    + apply designer_task_pitch_inj in H. congruence.
    + exfalso. exact (designer_task_not_evaluation _ _ _ _ _ H).
  - split; [right; right; right; eexists; reflexivity|].
    intros Hs c questions.
    repeat split; intros H.
    + symmetry in H. exact (ceo_task_not_evaluation _ _ _ _ _ H).
    + symmetry in H. exact (cto_task_not_evaluation _ _ _ _ _ H).
    + symmetry in H. exact (designer_task_not_evaluation _ _ _ _ _ H).
    + intros H'. rewrite H in H'.
      apply evaluation_task_pitch_inj in H'. congruence.
Qed.

End Orchestration.


(* ================================================================= *)
(** ** The stub scenario, and the theorems at sample inputs *)

(** C5. With the stub that answers CEO-Q, CTO-Q and Designer-Q to the
    three personas and the fixed assessment to the evaluation, the run on
    the pitch "Ship feature X in Q2 with 2 engineers" returns; it prints,
    in this order, the header and the question set of the CEO, of the CTO
    and of the designer, and then the assessment panel, whose body is the
    stub's evaluation text itself; the evaluation request carries the
    three labelled blocks in the same order; and the evaluation task keeps
    the text as its output, nothing being read out of it. *)
Theorem end_to_end_scenario :
  let r := run Sample.stub Sample.env 0 (Some Sample.pitch) None in
  fst r = Ok tt
  /\ printed (history (snd r))
     = [banner; assembling_line; starting_line;
        ceo_header; Markdown (lit "CEO-Q");
        cto_header; Markdown (lit "CTO-Q");
        designer_header; Markdown (lit "Designer-Q");
        calculating_line;
        assessment_panel Sample.assessment;
        complete_line]
  /\ generations (history (snd r))
     = [(0, ceo_task Sample.pitch 0, Some (lit "CEO-Q"));
        (1, cto_task Sample.pitch 1, Some (lit "CTO-Q"));
        (2, designer_task Sample.pitch 2, Some (lit "Designer-Q"));
        (3, evaluation_task Sample.pitch (lit "
CEO: CEO-Q

CTO: CTO-Q

Designer: Designer-Q
") 0, Some Sample.assessment)]
  /\ option_map output (nth_error (tasks (snd r)) 3)
     = Some (Some Sample.assessment)
  /\ Sample.assessment = lit "Score: 7" ++ nl ++ lit "Strengths: ..." ++ nl ++
                         lit "Gaps: ..." ++ nl ++ lit "Improvements: ...".
Proof. vm_compute. repeat split. Qed.

(** C4, the claim as stated fails.  In the stub scenario the evaluation
    request carries [questions_text] of the three outputs, and that text is
    not the aggregation labelled with the roles of the three agents, with
    or without a newline before and after, and not the bare aggregation
    under the labels CEO, CTO and Designer either. *)
Lemma composite_is_not_role_labelled :
  let w := snd (run Sample.stub Sample.env 0 (Some Sample.pitch) None) in
  let composite :=
    questions_text (lit "CEO-Q") (lit "CTO-Q") (lit "Designer-Q") in
  let by_role :=
    aggregate_spec [(role (ceo_agent Sample.env), lit "CEO-Q");
                    (role (cto_agent Sample.env), lit "CTO-Q");
                    (role (designer_agent Sample.env), lit "Designer-Q")] in
  nth_error (generations (history w)) 3
  = Some (3, evaluation_task Sample.pitch composite 0,
          Some Sample.assessment)
  /\ composite <> by_role
  /\ composite <> nl ++ by_role ++ nl
  /\ composite <> aggregate_spec [(lit "CEO", lit "CEO-Q");
                                  (lit "CTO", lit "CTO-Q");
                                  (lit "Designer", lit "Designer-Q")].
Proof.
  vm_compute. repeat split; discriminate.
Qed.


(** C1 in the stub scenario: the four requests, in order. *)
Lemma questions_before_evaluation_witness :
  get_pitch (Some Sample.pitch) None Sample.env (start 0)
  = (Ok Sample.pitch, start 0)
  /\ nonempty (strip Sample.pitch) = true
  /\ generations
       (history (snd (run Sample.stub Sample.env 0 (Some Sample.pitch) None)))
     = [(0, ceo_task Sample.pitch 0, Some (lit "CEO-Q"));
        (1, cto_task Sample.pitch 1, Some (lit "CTO-Q"));
        (2, designer_task Sample.pitch 2, Some (lit "Designer-Q"));
        (3, evaluation_task Sample.pitch
              (questions_text (lit "CEO-Q") (lit "CTO-Q") (lit "Designer-Q"))
              0, Some Sample.assessment)].
Proof.
  split; [reflexivity|]. split; [reflexivity|].
  exact (proj2 (proj2 (questions_before_evaluation
                         Sample.stub Sample.env 0 (Some Sample.pitch) None
                         Sample.pitch (start 0) eq_refl eq_refl))
               (lit "CEO-Q") (lit "CTO-Q") (lit "Designer-Q")
               eq_refl eq_refl eq_refl).
Defined.

(** C2 on a pitch of two spaces. *)
Lemma blank_pitch_rejected_witness :
  get_pitch (Some (lit "  ")) None Sample.env (start 0)
  = (Ok (lit "  "), start 0)
  /\ forallb isspace (lit "  ") = true
  /\ fst (run Sample.stub Sample.env 0 (Some (lit "  ")) None)
     = Raise (Exit 1)
  /\ generations
       (history (snd (run Sample.stub Sample.env 0 (Some (lit "  ")) None)))
     = [].
Proof.
  split; [reflexivity|]. split; [reflexivity|].
  pose proof (blank_pitch_rejected Sample.stub Sample.env 0
                (Some (lit "  ")) None (lit "  ") (start 0)
                eq_refl eq_refl) as H.
  exact (conj (proj1 H) (proj1 (proj2 H))).
Defined.

(** C3 with a backend that fails the request of the CTO. *)
Lemma persona_failure_aborts_witness :
  let r := run (Sample.failing 1) Sample.env 0 (Some Sample.pitch) None in
  get_pitch (Some Sample.pitch) None Sample.env (start 0)
  = (Ok Sample.pitch, start 0)
  /\ nonempty (strip Sample.pitch) = true
  /\ In (1, cto_task Sample.pitch 1, None) (generations (history (snd r)))
  /\ fst r = Raise (GenerationFailure 1)
  /\ surfaced (history (snd r)) = [].
Proof.
  split; [reflexivity|]. split; [reflexivity|].
  assert (Hin : In (1, cto_task Sample.pitch 1, None)
                   (generations
                      (history
                         (snd (run (Sample.failing 1) Sample.env 0
                                   (Some Sample.pitch) None))))).
  { vm_compute. right. left. reflexivity. }
  split; [exact Hin|].
  pose proof (proj1 (persona_failure_aborts
                       (Sample.failing 1) Sample.env 0 (Some Sample.pitch)
                       None Sample.pitch (start 0) eq_refl eq_refl)
                1 (cto_task Sample.pitch 1) Hin
                (or_intror (or_introl eq_refl))) as H.
  exact (conj (proj1 H) (proj2 (proj2 H))).
Defined.

(** C4 as amended, in the stub scenario. *)
Lemma composite_questions_text_witness :
  get_pitch (Some Sample.pitch) None Sample.env (start 0)
  = (Ok Sample.pitch, start 0)
  /\ nonempty (strip Sample.pitch) = true
  /\ List.length
       (generations
          (history
             (snd (run Sample.stub Sample.env 0 (Some Sample.pitch) None))))
     = 4.
Proof.
  split; [reflexivity|]. split; [reflexivity|].
  exact (proj1 (proj2 (composite_questions_text
                         Sample.stub Sample.env 0 (Some Sample.pitch) None
                         Sample.pitch (start 0)
                         (lit "CEO-Q") (lit "CTO-Q") (lit "Designer-Q")
                         eq_refl eq_refl eq_refl eq_refl eq_refl))).
Defined.


(** C7 for the stub, from a fresh backend and from one that has answered four requests. *)
Lemma pipeline_deterministic_witness :
  (forall a t s s',
      fst (Sample.stub a t s) = fst (Sample.stub a t s'))
  /\ history (snd (run Sample.stub Sample.env 0 (Some Sample.pitch) None))
     = history (snd (run Sample.stub Sample.env 4 (Some Sample.pitch) None)).
Proof.
  split; [intros a t s s'; reflexivity|].
  exact (proj2 (pipeline_deterministic
                  Sample.stub Sample.env 0 4 (Some Sample.pitch) None
                  (fun a t s s' => eq_refl))).
Defined.

(** C8 in the stub scenario: the request of the CEO and the evaluation
    request are made, with the pitch and the questions text in them. *)
Lemma requests_follow_templates_witness :
  let w := snd (run Sample.stub Sample.env 0 (Some Sample.pitch) None) in
  get_pitch (Some Sample.pitch) None Sample.env (start 0)
  = (Ok Sample.pitch, start 0)
  /\ nonempty (strip Sample.pitch) = true
  /\ (exists q,
        nth_error (generations (history w)) 0
        = Some (0, q, Some (lit "CEO-Q"))
        /\ nth_error (agents w) (agent q) = Some (ceo_agent Sample.env)
        /\ description q
           = ceo_prompt_head ++ Sample.pitch ++ ceo_prompt_tail
        /\ occurs (lit "2-3") (expected_output q))
  /\ (exists q,
        nth_error (generations (history w)) 3
        = Some (3, q, Some Sample.assessment)
        /\ nth_error (agents w) (agent q) = Some (ceo_agent Sample.env)
        /\ description q
           = evaluation_prompt_head ++ Sample.pitch ++
             evaluation_prompt_middle ++
             questions_text (lit "CEO-Q") (lit "CTO-Q") (lit "Designer-Q") ++
             evaluation_prompt_tail).
Proof.
  split; [reflexivity|]. split; [reflexivity|].
  pose proof (requests_follow_templates
                Sample.stub Sample.env 0 (Some Sample.pitch) None
                Sample.pitch (start 0) eq_refl eq_refl) as H.
  split.
  - exact (proj1 H).
  - exact (proj1 (proj2 (proj2 (proj2 H)))
                 (lit "CEO-Q") (lit "CTO-Q") (lit "Designer-Q")
                 eq_refl eq_refl eq_refl).
Defined.


(** C10 on a pitch with two leading spaces and a final newline. *)
Lemma pitch_embedded_untrimmed_witness :
  get_pitch (Some Sample.padded_pitch) None Sample.env (start 0)
  = (Ok Sample.padded_pitch, start 0)
  /\ nonempty (strip Sample.padded_pitch) = true
  /\ strip Sample.padded_pitch <> Sample.padded_pitch
  /\ ceo_task Sample.padded_pitch 0
     <> ceo_task (strip Sample.padded_pitch) 0.
Proof.
  split; [reflexivity|]. split; [reflexivity|].
  assert (Hs : strip Sample.padded_pitch <> Sample.padded_pitch)
    by (vm_compute; discriminate).
  split; [exact Hs|].
  assert (Hin : In (0, ceo_task Sample.padded_pitch 0, Some (lit "CEO-Q"))
                   (generations
                      (history
                         (snd (run Sample.stub Sample.env 0
                                   (Some Sample.padded_pitch) None))))).
  { vm_compute. left. reflexivity. }
  exact (proj1 (proj2 (pitch_embedded_untrimmed
                         Sample.stub Sample.env 0 (Some Sample.padded_pitch)
                         None Sample.padded_pitch (start 0) eq_refl eq_refl
                         0 (ceo_task Sample.padded_pitch 0)
                         (Some (lit "CEO-Q")) Hin)
                      Hs 0 [])).
Defined.

(* ================================================================= *)
(** ** The command line, the display and the prompts *)

(** A printed thing that cannot be among the things of a list. *)
Ltac not_among H :=
  cbn [In app session_events question_display] in H;
  repeat (destruct H as [H|H];
          [solve [discriminate H | vm_compute in H; discriminate H]|]);
  solve [destruct H].

Section Coverage.

Context {Backend : Type}.
Variable generate : Agent -> Task -> Backend -> option str * Backend.

(** Where the pitch text comes from, case by case. *)
Lemma get_pitch_cases (pitch pitch_file : option str) (env : Env)
      (w : World Backend) :
  get_pitch pitch pitch_file env w
  = match truthy pitch_file with
    | Some path =>
        match files env path with
        | Some contents => (Ok contents, w)
        | None => (Raise (FileError path), w)
        end
    | None =>
        match truthy pitch with
        | Some p => (Ok p, w)
        | None =>
            (Ok (stdin env),
             {| agents := agents w; tasks := tasks w; backend := backend w;
                history := history w ++ [Print enter_prompt] |})
        end
    end.
Proof.
  unfold get_pitch, bind, ask, ret, raise, console_print, emit.
  destruct (truthy pitch_file) as [path|].
  - destruct (files env path); reflexivity.
  - destruct (truthy pitch); reflexivity.
Qed.

(** The three ways a run can go. *)
Lemma run_cases (env : Env) (b : Backend) (pitch pitch_file : option str) :
  (exists path,
      truthy pitch_file = Some path /\ files env path = None
      /\ run generate env b pitch pitch_file
         = (Raise (FileError path), start b))
  \/ (exists text w0,
        get_pitch pitch pitch_file env (start b) = (Ok text, w0)
        /\ nonempty (strip text) = false)
  \/ (exists text w0,
        get_pitch pitch pitch_file env (start b) = (Ok text, w0)
        /\ nonempty (strip text) = true).
Proof.
  destruct (get_pitch pitch pitch_file env (start b)) as [r w0] eqn:Hsrc.
  destruct r as [text|e].
  - right. destruct (nonempty (strip text)) eqn:Hne.
    + right. exists text, w0. auto.
    + left. exists text, w0. auto.
  - left. pose proof (run_unread generate _ _ _ _ _ _ Hsrc) as Hrun.
    rewrite get_pitch_cases in Hsrc.
    destruct (truthy pitch_file) as [path|].
    + destruct (files env path) eqn:Hf; [discriminate|].
      inversion Hsrc; subst. exists path. auto.
    + destruct (truthy pitch); discriminate.
Qed.

(** X1. Once the pitch text has been read, the run ends with
    [typer.Exit(1)] exactly when the text is empty or has only white
    space: an accepted pitch never exits that way, whatever the backend
    does. *)
Theorem exit_iff_blank (env : Env) (b : Backend)
        (pitch pitch_file : option str) (pitch_text : str)
        (w0 : World Backend) :
  get_pitch pitch pitch_file env (start b) = (Ok pitch_text, w0) ->
  (fst (run generate env b pitch pitch_file) = Raise (Exit 1)
   <-> forallb isspace pitch_text = true).
Proof.
  intros Hsrc. rewrite <- strip_empty_iff. split.
  - intros Hexit. destruct (nonempty (strip pitch_text)) eqn:Hne;
      [|reflexivity].
    rewrite (run_result generate env b _ _ _ _ Hsrc Hne) in Hexit.
    destruct (fst (ceo_exchange generate env pitch_text b)),
             (fst (cto_exchange generate env pitch_text b)),
             (fst (designer_exchange generate env pitch_text b)),
             (fst (evaluation_exchange generate env pitch_text b));
      discriminate.
  - intros Hblank.
    rewrite (run_rejected generate _ _ _ _ _ _ Hsrc Hblank). reflexivity.
Qed.

(** X2. When [--file] is given (a non-empty path), [--pitch] is not
    looked at: two runs that differ in [--pitch] only are the same run. *)
Theorem file_takes_precedence (env : Env) (b : Backend)
        (pitch pitch' pitch_file : option str) (path : str) :
  truthy pitch_file = Some path ->
  run generate env b pitch pitch_file = run generate env b pitch' pitch_file.
Proof.
  intros Hf. unfold run, grill, bind. rewrite !get_pitch_cases, Hf.
  reflexivity.
Qed.

(** X3. When the file of [--file] cannot be read, the run ends with the
    error of [open] before anything is printed, created or requested,
    also when [--pitch] holds a valid pitch: there is no fall back. *)
Theorem unreadable_file_aborts (env : Env) (b : Backend)
        (pitch pitch_file : option str) (path : str) :
  truthy pitch_file = Some path ->
  files env path = None ->
  run generate env b pitch pitch_file = (Raise (FileError path), start b).
Proof.
  intros Hf Hnone. unfold run, grill, bind.
  rewrite get_pitch_cases, Hf, Hnone. reflexivity.
Qed.

(** X4. The prompt for standard input is printed exactly when neither
    [--file] nor [--pitch] holds a non-empty string (an empty [--pitch]
    counts as none); the pitch text is then what standard input holds, and
    the prompt is the first thing printed. *)
Theorem prompt_iff_no_option (env : Env) (b : Backend)
        (pitch pitch_file : option str) :
  let w := snd (run generate env b pitch pitch_file) in
  (In (Print enter_prompt) (history w)
   <-> truthy pitch_file = None /\ truthy pitch = None)
  /\ (truthy pitch_file = None -> truthy pitch = None ->
      fst (get_pitch pitch pitch_file env (start b)) = Ok (stdin env)
      /\ nth_error (history w) 0 = Some (Print enter_prompt)).
Proof.
  intros w. subst w.
  assert (Hsrc := get_pitch_cases pitch pitch_file env (start b)).
  destruct (truthy pitch_file) as [path|] eqn:Hf.
  - split; [|intros; discriminate].
    split; [|intros [? _]; discriminate]. intros Hin. exfalso.
    destruct (files env path) as [text|] eqn:Hfile.
    + destruct (nonempty (strip text)) eqn:Hne.
      * destruct (run_accepted generate _ _ _ _ _ _ Hsrc Hne)
          as [w [Hrun [Hh _]]].
        rewrite Hrun in Hin. cbn [snd] in Hin. rewrite Hh in Hin.
        cbn [history start app] in Hin.
        destruct (fst (ceo_exchange generate env text b)),
                 (fst (cto_exchange generate env text b)),
                 (fst (designer_exchange generate env text b)),
                 (fst (evaluation_exchange generate env text b));
          not_among Hin.
      * rewrite (run_rejected generate _ _ _ _ _ _ Hsrc Hne) in Hin.
        cbn [snd history start app] in Hin. not_among Hin.
    + rewrite (run_unread generate _ _ _ _ _ _ Hsrc) in Hin.
      destruct Hin.
  - destruct (truthy pitch) as [text|] eqn:Hp.
    + split; [|intros; discriminate].
      split; [|intros [_ ?]; discriminate]. intros Hin. exfalso.
      destruct (nonempty (strip text)) eqn:Hne.
      * destruct (run_accepted generate _ _ _ _ _ _ Hsrc Hne)
          as [w [Hrun [Hh _]]].
        rewrite Hrun in Hin. cbn [snd] in Hin. rewrite Hh in Hin.
        cbn [history start app] in Hin.
        destruct (fst (ceo_exchange generate env text b)),
                 (fst (cto_exchange generate env text b)),
                 (fst (designer_exchange generate env text b)),
                 (fst (evaluation_exchange generate env text b));
          not_among Hin.
      * rewrite (run_rejected generate _ _ _ _ _ _ Hsrc Hne) in Hin.
        cbn [snd history start app] in Hin. not_among Hin.
    + assert (Hfirst :
                nth_error
                  (history (snd (run generate env b pitch pitch_file))) 0
                = Some (Print enter_prompt)).
      { destruct (nonempty (strip (stdin env))) eqn:Hne.
        - destruct (run_accepted generate _ _ _ _ _ _ Hsrc Hne)
            as [w [Hrun [Hh _]]].
          rewrite Hrun. cbn [snd]. rewrite Hh. reflexivity.
        - rewrite (run_rejected generate _ _ _ _ _ _ Hsrc Hne).
          reflexivity. }
      split.
      * split; [auto|]. intros _. eapply nth_error_In. exact Hfirst.
      * intros _ _. rewrite Hsrc. split; [reflexivity | exact Hfirst].
Qed.

(** X5. In a run whose four requests are answered, the history after the
    reading of the pitch is: the banner and the two opening lines; the
    three question requests, one after the other, before anything
    generated is shown; then each persona's header followed by its answer
    as Markdown, in the order CEO, CTO, designer; the line of the score;
    the evaluation request; the assessment panel and the closing line.
    The run returns. *)
Theorem answered_run_history (env : Env) (b : Backend)
        (pitch pitch_file : option str) (pitch_text : str)
        (w0 : World Backend) (q1 q2 q3 a : str) :
  get_pitch pitch pitch_file env (start b) = (Ok pitch_text, w0) ->
  nonempty (strip pitch_text) = true ->
  fst (ceo_exchange generate env pitch_text b) = Some q1 ->
  fst (cto_exchange generate env pitch_text b) = Some q2 ->
  fst (designer_exchange generate env pitch_text b) = Some q3 ->
  fst (evaluation_exchange generate env pitch_text b) = Some a ->
  fst (run generate env b pitch pitch_file) = Ok tt
  /\ history (snd (run generate env b pitch pitch_file))
     = history w0 ++
       [Print banner; Print assembling_line; Print starting_line;
        Generate 0 (ceo_task pitch_text 0) (Some q1);
        Generate 1 (cto_task pitch_text 1) (Some q2);
        Generate 2 (designer_task pitch_text 2) (Some q3);
        Print ceo_header; Print (Markdown q1);
        Print cto_header; Print (Markdown q2);
        Print designer_header; Print (Markdown q3);
        Print calculating_line;
        Generate 3 (evaluation_task pitch_text (questions_text q1 q2 q3) 0)
                 (Some a);
        Print (assessment_panel a); Print complete_line].
Proof.
  intros Hsrc Hne E1 E2 E3 E4.
  destruct (run_accepted generate _ _ _ _ _ _ Hsrc Hne) as [w [Hrun [Hh _]]].
  rewrite Hrun. cbn [fst snd]. rewrite Hh, E1, E2, E3, E4.
  split; reflexivity.
Qed.

(** X6. When the three personas are answered and the evaluation request
    fails, the three question sets have already been shown under their
    headers; the run then ends with the failure of the evaluation task,
    and neither an assessment panel nor the closing line is printed. *)
Theorem evaluation_failure_after_display (env : Env) (b : Backend)
        (pitch pitch_file : option str) (pitch_text : str)
        (w0 : World Backend) (q1 q2 q3 : str) :
  get_pitch pitch pitch_file env (start b) = (Ok pitch_text, w0) ->
  nonempty (strip pitch_text) = true ->
  fst (ceo_exchange generate env pitch_text b) = Some q1 ->
  fst (cto_exchange generate env pitch_text b) = Some q2 ->
  fst (designer_exchange generate env pitch_text b) = Some q3 ->
  fst (evaluation_exchange generate env pitch_text b) = None ->
  let w := snd (run generate env b pitch pitch_file) in
  fst (run generate env b pitch pitch_file) = Raise (GenerationFailure 3)
  /\ printed (history w)
     = printed (history w0) ++
       [banner; assembling_line; starting_line;
        ceo_header; Markdown q1; cto_header; Markdown q2;
        designer_header; Markdown q3; calculating_line]
  /\ (forall a, ~ In (Print (assessment_panel a)) (history w))
  /\ ~ In (Print complete_line) (history w).
Proof.
  intros Hsrc Hne E1 E2 E3 E4 w. subst w.
  destruct (run_accepted generate _ _ _ _ _ _ Hsrc Hne) as [w [Hrun [Hh _]]].
  rewrite Hrun. cbn [fst snd]. rewrite Hh, E1, E2, E3, E4.
  split; [reflexivity|]. split; [rewrite printed_app; reflexivity|].
  destruct (get_pitch_world _ _ _ _ _ _ Hsrc) as [_ [E|E]]; rewrite E;
    (split; [intros a Hin | intros Hin]); cbn [app] in Hin; not_among Hin.
Qed.

(** X7. The closing line, which tells the user the session is complete,
    is printed exactly in the runs that return: never after a rejected
    pitch, an unreadable file or a failed request. *)
Theorem completion_iff_success (env : Env) (b : Backend)
        (pitch pitch_file : option str) :
  In (Print complete_line)
     (history (snd (run generate env b pitch pitch_file)))
  <-> fst (run generate env b pitch pitch_file) = Ok tt.
Proof.
  destruct (run_cases env b pitch pitch_file)
    as [[path [_ [_ Hrun]]] | [[text [w0 [Hsrc Hne]]] | [text [w0 [Hsrc Hne]]]]].
  - rewrite Hrun. cbn [fst snd history start].
    split; [intros [] | discriminate].
  - rewrite (run_rejected generate _ _ _ _ _ _ Hsrc Hne).
    cbn [fst snd history].
    split; [|discriminate]. intros Hin. exfalso.
    destruct (get_pitch_world _ _ _ _ _ _ Hsrc) as [_ [E|E]];
      rewrite E in Hin; cbn [app] in Hin; not_among Hin.
  - destruct (run_accepted generate _ _ _ _ _ _ Hsrc Hne)
      as [w [Hrun [Hh _]]].
    rewrite Hrun. cbn [fst snd]. rewrite Hh.
    destruct (fst (ceo_exchange generate env text b)) as [q1|];
    [destruct (fst (cto_exchange generate env text b)) as [q2|];
     [destruct (fst (designer_exchange generate env text b)) as [q3|];
      [destruct (fst (evaluation_exchange generate env text b)) as [a|]
      |]|]|];
    cbn [session_result].
    1:{ split; [reflexivity|]. intros _. apply in_or_app. right.
        cbn [session_events question_display app In].
        repeat (first [left; reflexivity | right]). }
    all: split; [|discriminate]; intros Hin; exfalso;
      destruct (get_pitch_world _ _ _ _ _ _ Hsrc) as [_ [E|E]];
      rewrite E in Hin; cbn [app] in Hin; not_among Hin.
Qed.

(** X10. Every agent of a run is created with the model named by the
    environment variable STAKEHOLDER_MODEL, or with ollama/llama3.1:8b
    when the variable is not set, and with [verbose=False]; the three
    personas share the one model. *)
Theorem agents_use_configured_model (env : Env) (b : Backend)
        (pitch pitch_file : option str) (pitch_text : str)
        (w0 : World Backend) :
  get_pitch pitch pitch_file env (start b) = (Ok pitch_text, w0) ->
  nonempty (strip pitch_text) = true ->
  forall a,
    In a (agents (snd (run generate env b pitch pitch_file))) ->
    verbose a = false
    /\ (forall m, STAKEHOLDER_MODEL env = Some m -> llm a = m)
    /\ (STAKEHOLDER_MODEL env = None -> llm a = lit "ollama/llama3.1:8b").
Proof.
  intros Hsrc Hne a.
  rewrite (run_agents generate env b _ _ _ _ Hsrc Hne).
  cbn [In]. intros [H|[H|[H|[]]]]; subst a;
    cbn [verbose llm ceo_agent cto_agent designer_agent];
    unfold LLM_CONFIG_model;
    (split; [reflexivity|]);
    (split; [intros m Hm; rewrite Hm; reflexivity
            | intros Hm; rewrite Hm; reflexivity]).
Qed.

(** X11. The description of a persona's task tells the persona and the
    pitch: the descriptions of two different personas are never equal,
    whatever the pitches, and two descriptions of the same persona are
    equal only for the same pitch text. *)
Theorem persona_prompts_distinct (p p' : str) (c c' : ref) :
  description (ceo_task p c) <> description (cto_task p' c')
  /\ description (ceo_task p c) <> description (designer_task p' c')
  /\ description (cto_task p c) <> description (designer_task p' c')
  /\ (description (ceo_task p c) = description (ceo_task p' c') -> p = p')
  /\ (description (cto_task p c) = description (cto_task p' c') -> p = p')
  /\ (description (designer_task p c) = description (designer_task p' c')
      -> p = p').
Proof.
  cbn [description ceo_task cto_task designer_task].
  repeat split.
  - intros H. apply (f_equal (fun l => nth 44 l 0%N)) in H.
    vm_compute in H. discriminate.
  - intros H. apply (f_equal (fun l => nth 44 l 0%N)) in H.
    vm_compute in H. discriminate.
  - intros H. apply (f_equal (fun l => nth 44 l 0%N)) in H.
    vm_compute in H. discriminate.
  - intros H. apply app_inv_head in H. apply app_inv_tail in H. exact H.
  - intros H. apply app_inv_head in H. apply app_inv_tail in H. exact H.
  - intros H. apply app_inv_head in H. apply app_inv_tail in H. exact H.
Qed.

(** X12. The description of the evaluation task does not delimit what it
    substitutes: text that follows the heading of the stakeholder
    questions inside the pitch is read as well as questions.  A pitch that
    ends with that heading and some text, together with given questions,
    yields the same task as the shorter pitch with the text and the
    heading put before the questions. *)
Theorem evaluation_prompt_not_delimited (p x questions : str) (c : ref) :
  evaluation_task (p ++ evaluation_prompt_middle ++ x) questions c
  = evaluation_task p (x ++ evaluation_prompt_middle ++ questions) c
  /\ p ++ evaluation_prompt_middle ++ x <> p.
Proof.
  split.
  - unfold evaluation_task. f_equal. rewrite <- !app_assoc. reflexivity.
  - intros H. apply (f_equal (@List.length N)) in H.
    rewrite !length_app in H.
    assert (L : List.length evaluation_prompt_middle = 25)
      by (vm_compute; reflexivity).
    rewrite L in H. lia.
Qed.

(** X13. The command [example] prints one panel, whose Markdown body is
    the example pitch, and asks the backend nothing; and the pitch it
    shows is one [grill] accepts: read from a file, as the panel suggests,
    it is the pitch of the first request, the CEO's. *)
Theorem example_pitch_is_accepted (env : Env) (b : Backend) (path : str) :
  truthy (Some path) = Some path ->
  files env path = Some example_pitch ->
  example env (start b)
  = (Ok tt, {| agents := []; tasks := []; backend := b;
               history := [Print example_panel] |})
  /\ surfaced [Print example_panel] = [example_pitch]
  /\ nth_error
       (generations
          (history (snd (run generate env b None (Some path))))) 0
     = Some (0, ceo_task example_pitch 0,
             fst (ceo_exchange generate env example_pitch b)).
Proof.
  intros Hpath Hfile. split; [reflexivity|]. split; [reflexivity|].
  assert (Hsrc : get_pitch None (Some path) env (start b)
                 = (Ok example_pitch, start b)).
  { rewrite get_pitch_cases, Hpath, Hfile. reflexivity. }
  assert (Hne : nonempty (strip example_pitch) = true)
    by (vm_compute; reflexivity).
  rewrite (run_generations generate env b _ _ _ _ Hsrc Hne).
  destruct (fst (ceo_exchange generate env example_pitch b)); reflexivity.
Qed.

End Coverage.

(** X1 on a pitch of two spaces. *)
Lemma exit_iff_blank_witness :
  get_pitch (Some (lit "  ")) None Sample.env (start 0)
  = (Ok (lit "  "), start 0)
  /\ (fst (run Sample.stub Sample.env 0 (Some (lit "  ")) None)
      = Raise (Exit 1)
      <-> forallb isspace (lit "  ") = true).
Proof.
  split; [reflexivity|].
  exact (exit_iff_blank Sample.stub Sample.env 0 (Some (lit "  ")) None
                        (lit "  ") (start 0) eq_refl).
Defined.

(** X2 with the readable file: a pitch on the command line changes
    nothing. *)
Lemma file_takes_precedence_witness :
  truthy (Some Disk.path) = Some Disk.path
  /\ run Sample.stub Disk.env 0 (Some Sample.pitch) (Some Disk.path)
     = run Sample.stub Disk.env 0 None (Some Disk.path).
Proof.
  split; [reflexivity|].
  exact (file_takes_precedence Sample.stub Disk.env 0 (Some Sample.pitch)
                               None (Some Disk.path) Disk.path eq_refl).
Defined.

(** X3 with a file that is not there and a valid pitch beside it. *)
Lemma unreadable_file_aborts_witness :
  truthy (Some (lit "missing.txt")) = Some (lit "missing.txt")
  /\ files Disk.env (lit "missing.txt") = None
  /\ run Sample.stub Disk.env 0 (Some Sample.pitch)
         (Some (lit "missing.txt"))
     = (Raise (FileError (lit "missing.txt")), start 0).
Proof.
  split; [reflexivity|]. split; [reflexivity|].
  exact (unreadable_file_aborts Sample.stub Disk.env 0 (Some Sample.pitch)
                                (Some (lit "missing.txt"))
                                (lit "missing.txt") eq_refl eq_refl).
Defined.

(** X4 with an empty pitch option and no file: standard input is read. *)
Lemma prompt_iff_no_option_witness :
  truthy (@None str) = None
  /\ truthy (Some []) = None
  /\ fst (get_pitch (Some []) None Disk.env (start 0))
     = Ok (stdin Disk.env)
  /\ nth_error
       (history (snd (run Sample.stub Disk.env 0 (Some []) None))) 0
     = Some (Print enter_prompt).
Proof.
  split; [reflexivity|]. split; [reflexivity|].
  exact (proj2 (prompt_iff_no_option Sample.stub Disk.env 0 (Some []) None)
               eq_refl eq_refl).
Defined.

(** X5 in the stub scenario. *)
Lemma answered_run_history_witness :
  get_pitch (Some Sample.pitch) None Sample.env (start 0)
  = (Ok Sample.pitch, start 0)
  /\ nonempty (strip Sample.pitch) = true
  /\ fst (run Sample.stub Sample.env 0 (Some Sample.pitch) None) = Ok tt.
Proof.
  split; [reflexivity|]. split; [reflexivity|].
  exact (proj1 (answered_run_history
                  Sample.stub Sample.env 0 (Some Sample.pitch) None
                  Sample.pitch (start 0)
                  (lit "CEO-Q") (lit "CTO-Q") (lit "Designer-Q")
                  Sample.assessment
                  eq_refl eq_refl eq_refl eq_refl eq_refl eq_refl)).
Defined.

(** X6 with a backend that fails the fourth request. *)
Lemma evaluation_failure_after_display_witness :
  get_pitch (Some Sample.pitch) None Sample.env (start 0)
  = (Ok Sample.pitch, start 0)
  /\ nonempty (strip Sample.pitch) = true
  /\ fst (evaluation_exchange (Sample.failing 3) Sample.env Sample.pitch 0)
     = None
  /\ fst (run (Sample.failing 3) Sample.env 0 (Some Sample.pitch) None)
     = Raise (GenerationFailure 3).
Proof.
  split; [reflexivity|]. split; [reflexivity|]. split; [reflexivity|].
  exact (proj1 (evaluation_failure_after_display
                  (Sample.failing 3) Sample.env 0 (Some Sample.pitch) None
                  Sample.pitch (start 0)
                  (lit "CEO-Q") (lit "CTO-Q") (lit "Designer-Q")
                  eq_refl eq_refl eq_refl eq_refl eq_refl eq_refl)).
Defined.

(** X10 with the model named in the environment and the pitch typed on
    standard input. *)
Lemma agents_use_configured_model_witness :
  fst (get_pitch None None Disk.env (start 0)) = Ok (stdin Disk.env)
  /\ nonempty (strip (stdin Disk.env)) = true
  /\ llm (ceo_agent Disk.env) = lit "openai/gpt-4o".
Proof.
  split; [reflexivity|]. split; [reflexivity|].
  assert (Hin : In (ceo_agent Disk.env)
                   (agents (snd (run Sample.stub Disk.env 0 None None)))).
  { vm_compute. left. reflexivity. }
  exact (proj1 (proj2 (agents_use_configured_model
                         Sample.stub Disk.env 0 None None (stdin Disk.env)
                         (snd (get_pitch None None Disk.env (start 0)))
                         eq_refl eq_refl (ceo_agent Disk.env) Hin))
               (lit "openai/gpt-4o") eq_refl).
Defined.

(** X13 with the example pitch in the file the panel names. *)
Lemma example_pitch_is_accepted_witness :
  truthy (Some Disk.path) = Some Disk.path
  /\ files Disk.env Disk.path = Some example_pitch
  /\ nth_error
       (generations
          (history (snd (run Sample.stub Disk.env 0 None (Some Disk.path)))))
       0
     = Some (0, ceo_task example_pitch 0, Some (lit "CEO-Q")).
Proof.
  split; [reflexivity|]. split; [reflexivity|].
  exact (proj2 (proj2 (example_pitch_is_accepted
                         Sample.stub Disk.env 0 Disk.path
                         eq_refl eq_refl))).
Defined.
